(** * Ekasi Cart Shop API: the HTTP client adapter and the order facade

    A shallow embedding of

    - [src/common/celler-hut-client.ts]: the shared axios instance
      [cellerHutAPI] with its request interceptor and its two response
      handlers (success and error);
    - the [CellerHutOrdersService] class: one async method per order
      operation, each a [try]/[catch] around one or two calls of the
      adapter.

    JavaScript values are a tree type; a promise is a computation in a
    state-and-exception monad whose state holds the module's token slot and
    the log of the requests handed to the network.  [console.log] and
    [console.error] write to a log sink only and are left out, except where
    evaluating their arguments can throw.  The module
    [../common/data-transformer] and the enums of [./entities/order.entity]
    are imported by the service but are not part of the sources at hand:
    they are interfaces here (type classes). *)

From Stdlib Require Import ZArith NArith List String Ascii Bool Lia
  DecimalString.
Import ListNotations.
Open Scope string_scope.

(* ================================================================== *)
(** * JavaScript values *)
(* ================================================================== *)

Module JS.

#[local] Set Warnings "-register-all".

(** A number, as far as this program looks at one: it is tested for
    truthiness and printed (in a template string or by [new Error]); no
    arithmetic is done on it.  [NDec z] is the integral number [z] (of
    magnitude below 10^21, so that it prints in plain decimal), [NOther t]
    any other finite number, non-zero, carried with its printed form, and
    [NNaN] is NaN. *)
Inductive JSNumber : Type :=
| NDec (z : Z)
| NOther (text : string)
| NNaN.

Inductive JSValue : Type :=
| JUndefined
| JNull
| JBool (b : bool)
| JNum (n : JSNumber)
| JStr (s : string)
| JArr (items : list JSValue)
| JObj (fields : list (string * JSValue)).

(** The own properties of a plain object, in insertion order. *)
Definition JSObject : Type := list (string * JSValue).

Definition num (z : Z) : JSValue := JNum (NDec z).

(** ** Coercions of the language *)

(** ToBoolean. *)
Definition truthy (v : JSValue) : bool :=
  match v with
  | JUndefined | JNull => false
  | JBool b => b
  | JNum (NDec z) => negb (z =? 0)%Z
  | JNum (NOther _) => true
  | JNum NNaN => false
  | JStr s => negb (s =? "")
  | JArr _ | JObj _ => true
  end.

(** [a || b] *)
Definition js_or (a b : JSValue) : JSValue := if truthy a then a else b.

(** [a && b] *)
Definition js_and (a b : JSValue) : JSValue := if truthy a then b else a.

(** [v === 'literal'] *)
Definition strict_eq_str (v : JSValue) (lit : string) : bool :=
  match v with
  | JStr s => s =? lit
  | _ => false
  end.

(** [v !== undefined] *)
Definition is_defined (v : JSValue) : bool :=
  match v with
  | JUndefined => false
  | _ => true
  end.

(** [typeof v === 'object'] *)
Definition typeof_object (v : JSValue) : bool :=
  match v with
  | JNull | JArr _ | JObj _ => true
  | _ => false
  end.


Definition num_to_string (n : JSNumber) : string :=
  match n with
  | NDec z => NilZero.string_of_int (Z.to_int z)
  | NOther text => text
  | NNaN => "NaN"
  end.

Definition nat_to_string (n : nat) : string :=
  NilZero.string_of_uint (Nat.to_uint n).

(** ** Objects *)

Fixpoint lookup (k : string) (o : JSObject) : option JSValue :=
  match o with
  | [] => None
  | (k', v) :: rest => if k' =? k then Some v else lookup k rest
  end.

(** ToString, as a template string and the [Error] constructor apply it;
    [None] when it throws a TypeError.  An array prints its elements
    joined by commas, [null] and [undefined] elements as the empty string.
    An object prints as "[object Object]" through the method it inherits,
    unless it has a [toString] of its own: no value here is a function, so
    that property hides the inherited method, the inherited [valueOf]
    gives back the object, and the conversion throws. *)
Fixpoint toString (v : JSValue) : option string :=
  match v with
  | JUndefined => Some "undefined"
  | JNull => Some "null"
  | JBool true => Some "true"
  | JBool false => Some "false"
  | JNum n => Some (num_to_string n)
  | JStr s => Some s
  | JArr items =>
      (fix join (l : list JSValue) : option string :=
         match l with
         | [] => Some ""
         | x :: rest =>
             let here :=
               match x with
               | JUndefined | JNull => Some ""
               | _ => toString x
               end in
             match here, rest with
             | None, _ => None
             | Some text, [] => Some text
             | Some text, _ :: _ =>
                 match join rest with
                 | Some tail => Some (text ++ "," ++ tail)
                 | None => None
                 end
             end
         end) items
  | JObj fields =>
      match lookup "toString" fields with
      | Some _ => None
      | None => Some "[object Object]"
      end
  end.

(** The keys that are array indices: the decimal numerals of 0 to
    2^32 - 2.  An object lists them first, in ascending order, and its
    other keys after them in the order they were added. *)
Definition arrayIndex (k : string) : option N :=
  match NilEmpty.uint_of_string k with
  | Some u =>
      let n := N.of_uint u in
      if (NilZero.string_of_uint (N.to_uint n) =? k) && (n <=? 4294967294)%N
      then Some n
      else None
  | None => None
  end.

(** A new value for a key the object has: the key keeps its place. *)
Fixpoint replaceField (k : string) (v : JSValue) (o : JSObject) : JSObject :=
  match o with
  | [] => []
  | (k', v') :: rest =>
      if k' =? k then (k', v) :: rest else (k', v') :: replaceField k v rest
  end.

(** A new index key [k], of index [n]: it goes after the smaller indices
    and before everything else. *)
Fixpoint insertIndex (n : N) (k : string) (v : JSValue) (o : JSObject)
  : JSObject :=
  match o with
  | [] => [(k, v)]
  | (k', v') :: rest =>
      match arrayIndex k' with
      | Some n' =>
          if (n' <? n)%N
          then (k', v') :: insertIndex n k v rest
          else (k, v) :: o
      | None => (k, v) :: o
      end
  end.

(** [o[k] = v] on an object under construction: an existing key keeps its
    place and takes the new value; a new key goes last, or among the
    indices when it is one. *)
Definition setField (k : string) (v : JSValue) (o : JSObject) : JSObject :=
  match lookup k o with
  | Some _ => replaceField k v o
  | None =>
      match arrayIndex k with
      | Some n => insertIndex n k v o
      | None => (o ++ [(k, v)])%list
      end
  end.

(** [v.k] for a value that is neither [null] nor [undefined].  A primitive
    or an array has none of the names this program reads ([status], [data],
    [message], [order], ...), so only a plain object can answer. *)
Definition member (v : JSValue) (k : string) : JSValue :=
  match v with
  | JObj o =>
      match lookup k o with
      | Some x => x
      | None => JUndefined
      end
  | _ => JUndefined
  end.

Definition nullish (v : JSValue) : bool :=
  match v with
  | JUndefined | JNull => true
  | _ => false
  end.

Fixpoint indexed (i : nat) (l : list JSValue) : JSObject :=
  match l with
  | [] => []
  | x :: rest => (nat_to_string i, x) :: indexed (S i) rest
  end.

Fixpoint chars (s : string) : list JSValue :=
  match s with
  | EmptyString => []
  | String c rest => JStr (String c EmptyString) :: chars rest
  end.

(** The own enumerable properties that [...v] copies. *)
Definition ownProps (v : JSValue) : JSObject :=
  match v with
  | JObj o => o
  | JArr items => indexed 0 items
  | JStr s => indexed 0 (chars s)
  | _ => []
  end.

(** [{ ...base, ...src }], [base] already built. *)
Definition spread (base src : JSObject) : JSObject :=
  fold_left (fun acc kv => setField (fst kv) (snd kv) acc) src base.

End JS.
Export JS.

(* ================================================================== *)
(** * Responses, errors and promises *)
(* ================================================================== *)

Module Http.

(** What the service reads of an [AxiosResponse]. *)
Record Response : Type := mkResponse {
  resp_status : Z;
  resp_data : JSValue
}.

(** An error object.  [new Error(m)] has a message only; the adapter adds
    [statusCode] and [errors] to the errors it builds; an [AxiosError]
    carries a [code] and, when the server answered, the [response]. *)
Record JSError : Type := mkJSError {
  err_name : string;
  err_message : string;
  err_statusCode : option Z;
  err_errors : option JSValue;
  err_code : option string;
  err_response : option Response
}.

(** [new Error(m)] *)
Definition new_Error (m : string) : JSError :=
  mkJSError "Error" m None None None None.

(** The error of reading property [k] of [null] or [undefined]. *)
Definition TypeError_read (v : JSValue) (k : string) : JSError :=
  mkJSError "TypeError"
    ("Cannot read properties of "
       ++ match v with
          | JNull => "null"
          | _ => "undefined"
          end
       ++ " (reading '" ++ k ++ "')")
    None None None None.

(** The error of converting to a string an object that has no callable
    conversion method. *)
Definition TypeError_convert : JSError :=
  mkJSError "TypeError" "Cannot convert object to primitive value"
            None None None None.

(** A settled promise, or the outcome of a block that may throw. *)
Inductive Result (A : Type) : Type :=
| Ok (a : A)
| Throw (e : JSError).
Arguments Ok {A} a.
Arguments Throw {A} e.

(** [`${v}`] and the conversion [new Error(v)] makes, which throw where
    [toString] does. *)
Definition ToString (v : JSValue) : Result string :=
  match toString v with
  | Some text => Ok text
  | None => Throw TypeError_convert
  end.

(** [v.k], which throws on [null] and [undefined]. *)
Definition getProp (v : JSValue) (k : string) : Result JSValue :=
  if nullish v then Throw (TypeError_read v k) else Ok (member v k).

Inductive Method : Type := GET | POST | PUT.

(** A request configuration: the path below the base URL, the body
    ([undefined] when the call passes none), the [params] object
    ([undefined] when the call passes none) and the headers. *)
Record Request : Type := mkRequest {
  req_method : Method;
  req_url : string;
  req_data : JSValue;
  req_params : JSValue;
  req_headers : list (string * string)
}.

(** How the network settles a request before the response handlers run:
    axios resolves on a 2xx status and rejects otherwise. *)
Inductive Outcome : Type :=
| Resolved (response : Response)
| Rejected (error : JSError).

(** The state of the client module: the [authToken] slot ([None] is
    [null]) and the requests sent so far, oldest first. *)
Record ClientState : Type := mkClientState {
  authToken : option string;
  sent : list Request
}.

(** An async computation. *)
Definition M (A : Type) : Type := ClientState -> ClientState * Result A.

Definition ret {A} (a : A) : M A := fun st => (st, Ok a).

Definition throw {A} (e : JSError) : M A := fun st => (st, Throw e).

Definition bind {A B} (m : M A) (k : A -> M B) : M B :=
  fun st =>
    match m st with
    | (st', Ok a) => k a st'
    | (st', Throw e) => (st', Throw e)
    end.

(** [try { body } catch (error) { handler }] *)
Definition try_catch {A} (body : M A) (handler : JSError -> M A) : M A :=
  fun st =>
    match body st with
    | (st', Ok a) => (st', Ok a)
    | (st', Throw e) => handler e st'
    end.

Definition lift {A} (r : Result A) : M A := fun st => (st, r).

(** [items.map(f)] for an [f] that may throw: the first throw ends it. *)
Fixpoint mapM {A B} (f : A -> Result B) (items : list A) : Result (list B) :=
  match items with
  | [] => Ok []
  | x :: rest =>
      match f x with
      | Throw e => Throw e
      | Ok y =>
          match mapM f rest with
          | Throw e => Throw e
          | Ok ys => Ok (y :: ys)
          end
      end
  end.

End Http.
Export Http.

Declare Scope async_scope.
Delimit Scope async_scope with async.
Notation "x <- m ;; k" := (bind m (fun x => k))
  (at level 61, m at next level, right associativity) : async_scope.

Definition dquote : string := String "034"%char EmptyString.

(* ================================================================== *)
(** * The HTTP client adapter: src/common/celler-hut-client.ts *)
(* ================================================================== *)

(** The remote service, as one call of the facade sees it: what the network
    answers to a request.  No method of the service sends the same request
    twice, so a function of the request loses nothing. *)
Class Network : Type := {
  upstream : Request -> Outcome
}.

(** [process.env], as far as the client module reads it for the base
    address ([None] when the variable is not set). *)
Class Environment : Type := {
  env_CELLER_HUT_API_URL : option string
}.

Module CellerHutClient.

(** The [headers] of [axios.create]. *)
Definition defaultHeaders : list (string * string) :=
  [("Content-Type", "application/json"); ("Accept", "application/json")].

Fixpoint setHeader (k v : string) (h : list (string * string))
  : list (string * string) :=
  match h with
  | [] => [(k, v)]
  | (k', v') :: rest =>
      if k' =? k then (k', v) :: rest else (k', v') :: setHeader k v rest
  end.

Definition mergeHeaders (callHeaders : list (string * string))
  : list (string * string) :=
  fold_left (fun acc kv => setHeader (fst kv) (snd kv) acc)
            callHeaders defaultHeaders.

Definition setAuthToken (token : option string) : M unit :=
  fun st => (mkClientState token (sent st), Ok tt).

Definition getAuthToken : M (option string) :=
  fun st => (st, Ok (authToken st)).

(** [interceptors.request.use], first handler: the module's token, when
    there is one and it is not empty, takes the [Authorization] header. *)
Definition requestFulfilled (token : option string) (config : Request)
  : Request :=
  match token with
  | Some t =>
      if negb (t =? "")
      then mkRequest (req_method config) (req_url config) (req_data config)
             (req_params config)
             (setHeader "Authorization" ("Bearer " ++ t) (req_headers config))
      else config
  | None => config
  end.

(** [interceptors.response.use], first handler (lines 62-84). *)
Definition responseFulfilled (response : Response) : Response :=
  if truthy (resp_data response) && typeof_object (resp_data response) then
    if strict_eq_str (member (resp_data response) "status") "success"
       && is_defined (member (resp_data response) "data")
    then mkResponse (resp_status response)
                    (member (resp_data response) "data")
    else response
  else response.

(** Lines 110-127 of the second handler: the error it rejects with when the
    failure carries no error envelope. *)
Definition networkError (error : JSError) : JSError :=
  match err_code error with
  | Some c =>
      if c =? "ECONNABORTED"
      then new_Error "Request timeout - Ekasi Cart API not responding"
      else if c =? "ERR_NETWORK"
      then new_Error "Network error - Unable to reach Ekasi Cart API"
      else error
  | None => error
  end.

(** [interceptors.response.use], second handler (lines 85-128).  Every
    path ends in [Promise.reject], or in a throw of [new Error(message)]
    at line 102 when the message cannot be converted to a string; either
    way the promise is rejected, and the value is the error rejected
    with. *)
Definition responseRejected (error : JSError) : JSError :=
  match err_response error with
  | Some response =>
      if truthy (resp_data response) then
        let errorData := resp_data response in
        if strict_eq_str (member errorData "status") "error" then
          let statusCode := resp_status response in
          let message :=
            js_or (member errorData "message") (JStr "An error occurred") in
          let errors := js_or (member errorData "errors") (JObj []) in
          match ToString message with
          | Ok text =>
              mkJSError "Error" text (Some statusCode) (Some errors)
                        None None
          | Throw thrown => thrown
          end
        else networkError error
      else networkError error
  | None => networkError error
  end.

Section Instance.
Context {net : Network}.

(** One request through the instance: the request handler, the network,
    then one of the two response handlers. *)
Definition request (config : Request) : M Response :=
  fun st =>
    let config' := requestFulfilled (authToken st) config in
    let st' := mkClientState (authToken st) (sent st ++ [config']) in
    match upstream config' with
    | Resolved response => (st', Ok (responseFulfilled response))
    | Rejected error => (st', Throw (responseRejected error))
    end.

(** [cellerHutAPI.get(url, { params, headers })] *)
Definition get (url : string) (params : JSValue)
           (headers : list (string * string)) : M Response :=
  request (mkRequest GET url JUndefined params (mergeHeaders headers)).

(** [cellerHutAPI.post(url, data, { headers })] *)
Definition post (url : string) (data : JSValue)
           (headers : list (string * string)) : M Response :=
  request (mkRequest POST url data JUndefined (mergeHeaders headers)).

(** [cellerHutAPI.put(url, data)] *)
Definition put (url : string) (data : JSValue) : M Response :=
  request (mkRequest PUT url data JUndefined (mergeHeaders [])).

End Instance.

Section Health.
Context {net : Network} {env : Environment}.

(** [process.env.CELLER_HUT_API_URL || 'https://api.ekasicart.com'] *)
Definition CELLER_HUT_API_URL : string :=
  match env_CELLER_HUT_API_URL with
  | Some url => if negb (url =? "") then url else "https://api.ekasicart.com"
  | None => "https://api.ekasicart.com"
  end.

(** [axios.get(url, { timeout })] on the library itself, not on the
    instance: no handler of this module runs, the address is absolute and
    the call sets no header. *)
Definition axios_get (url : string) : M Response :=
  fun st =>
    let config := mkRequest GET url JUndefined JUndefined [] in
    let st' := mkClientState (authToken st) (sent st ++ [config]) in
    match upstream config with
    | Resolved response => (st', Ok response)
    | Rejected error => (st', Throw error)
    end.

(** Lines 132-142. *)
Definition checkCellerHutHealth : M bool :=
  try_catch
    (bind (axios_get (CELLER_HUT_API_URL ++ "/health"))
          (fun response => ret (resp_status response =? 200)%Z))
    (fun error => ret false).

End Health.

End CellerHutClient.

(* ================================================================== *)
(** * The order facade: CellerHutOrdersService *)
(* ================================================================== *)

(** [../common/data-transformer], imported by the service.  A transformer
    is handed a value of the remote format and either throws or returns;
    [transformCellerHutOrder] is declared to return an [Order] and the
    result of [transformPagination] is spread into an object literal, so
    both return plain objects.  A transformer reads its first argument
    only: [Array.prototype.map] hands it the index and the array as
    well. *)
Class DataTransformer : Type := {
  transformCellerHutOrder : JSValue -> Result JSObject;
  transformPagination : JSValue -> Result JSObject;
  transformOrderForCellerHut : JSValue -> Result JSValue
}.

(** The two enum members of [./entities/order.entity] the service names. *)
Class OrderEntity : Type := {
  OrderStatusType_PENDING : string;
  PaymentStatusType_PENDING : string
}.

(** The built-in [Number(v)].  On a string it parses a floating-point
    literal; its result only travels in a query parameter. *)
Class Runtime : Type := {
  toNumber : JSValue -> JSNumber
}.

Module CellerHutOrdersService.

Import CellerHutClient.
Local Open Scope async_scope.

(** The argument of [getOrders]. *)
Record GetOrdersDto : Type := mkGetOrdersDto {
  limit : JSValue;
  page : JSValue;
  customer_id : JSValue;
  tracking_number : JSValue;
  search : JSValue;
  shop_id : JSValue
}.

(** [token ? { Authorization: `Bearer ${token}` } : {}] *)
Definition authHeaders (token : option string) : list (string * string) :=
  match token with
  | Some t =>
      if negb (t =? "") then [("Authorization", "Bearer " ++ t)] else []
  | None => []
  end.

(** [cond ? (o[k] = v) : nothing] while an object is built. *)
Definition setIf (cond : bool) (k : string) (v : JSValue) (o : JSObject)
  : JSObject :=
  if cond then setField k v o else o.

(** The object the catch block of [getOrderAnalytics] returns. *)
Definition zeroAnalytics : JSValue :=
  JObj [("total_orders", num 0); ("total_revenue", num 0);
        ("pending_orders", num 0); ("completed_orders", num 0);
        ("cancelled_orders", num 0); ("average_order_value", num 0)].

Section Service.
Context {net : Network} {transformer : DataTransformer}
        {entity : OrderEntity} {runtime : Runtime}.

(** [Array.isArray(data) ? data.map(transformCellerHutOrder) : []] *)
Definition transformList (data : JSValue) : Result (list JSValue) :=
  match data with
  | JArr items =>
      mapM (fun item =>
              match transformCellerHutOrder item with
              | Ok o => Ok (JObj o)
              | Throw e => Throw e
              end) items
  | _ => Ok []
  end.

(** [{ data: transformedData, ...pagination }] *)
Definition paginator (transformedData : list JSValue) (pagination : JSObject)
  : JSValue :=
  JObj (spread [("data", JArr transformedData)] pagination).

Definition create (createOrderDto : JSValue) (token : option string)
  : M JSValue :=
  try_catch
    (cellerHutOrderData <- lift (transformOrderForCellerHut createOrderDto) ;;
     let headers := authHeaders token in
     response <- post "/ecommerce/orders" cellerHutOrderData headers ;;
     order <- lift (getProp (resp_data response) "order") ;;
     let orderData := js_or order (resp_data response) in
     let paymentData := js_or (member (resp_data response) "payment") JNull in
     transformedOrder <- lift (transformCellerHutOrder orderData) ;;
     ret (JObj (setIf (truthy paymentData) "payment" paymentData
                      transformedOrder)))
    (fun error => throw (new_Error "Failed to create order in Ekasi Cart API")).

Definition getOrders (dto : GetOrdersDto) (token : option string)
  : M JSValue :=
  try_catch
    (let params :=
       [("page", js_or (page dto) (num 1));
        ("limit", js_or (limit dto) (num 15))] in
     let params :=
       setIf (truthy (customer_id dto)) "customer_id" (customer_id dto)
             params in
     let params :=
       setIf (truthy (tracking_number dto)) "tracking_number"
             (tracking_number dto) params in
     let params :=
       setIf (truthy (shop_id dto)
              && negb (strict_eq_str (shop_id dto) "undefined"))
             "shop_id" (JNum (toNumber (shop_id dto))) params in
     let params :=
       setIf (truthy (search dto)) "search" (search dto) params in
     let headers := authHeaders token in
     response <- get "/ecommerce/orders" (JObj params) headers ;;
     transformedData <- lift (transformList (resp_data response)) ;;
     pagination <- lift (transformPagination (resp_data response)) ;;
     ret (paginator transformedData pagination))
    (fun error =>
       throw (new_Error "Failed to fetch orders from Ekasi Cart API")).

(** The [gps_tracking] object built from the order of the remote format. *)
Definition gpsTracking (orderData : JSValue) : JSValue :=
  JObj [("trackingEnabled", member orderData "tracking_enabled");
        ("trackingUrl", member orderData "tracking_url");
        ("deliveryService", member orderData "delivery_service");
        ("orderId", member orderData "id");
        ("orderNumber", member orderData "tracking_number");
        ("orderStatus", member orderData "order_status")].

Definition getOrderByIdOrTrackingNumber (id : string) (token : option string)
  : M JSValue :=
  try_catch
    (let headers := authHeaders token in
     response <-
       try_catch
         (get ("/ecommerce/orders/" ++ id) JUndefined headers)
         (fun error =>
            get ("/ecommerce/orders/tracking/" ++ id) JUndefined headers) ;;
     let orderData := resp_data response in
     transformedOrder <- lift (transformCellerHutOrder orderData) ;;
     tracking_enabled <- lift (getProp orderData "tracking_enabled") ;;
     if truthy (js_and tracking_enabled (member orderData "tookan_job_id"))
     then
       (* line 147 prints [`... ${orderData.tracking_number}`] *)
       logged <- lift (ToString (member orderData "tracking_number")) ;;
       ret (JObj (setField "gps_tracking" (gpsTracking orderData)
                           transformedOrder))
     else ret (JObj transformedOrder))
    (fun error =>
       throw (new_Error ("Order with ID/tracking " ++ dquote ++ id ++ dquote
                         ++ " not found"))).

Definition update (id : JSNumber) (updateOrderDto : JSValue) : M JSValue :=
  try_catch
    (cellerHutOrderData <- lift (transformOrderForCellerHut updateOrderDto) ;;
     response <- put ("/orders/" ++ num_to_string id) cellerHutOrderData ;;
     o <- lift (transformCellerHutOrder (resp_data response)) ;;
     ret (JObj o))
    (fun error =>
       throw (new_Error ("Failed to update order " ++ num_to_string id
                         ++ " in Ekasi Cart API"))).

Definition cancel (id : JSNumber) : M JSValue :=
  try_catch
    (response <-
       post ("/orders/" ++ num_to_string id ++ "/cancel") JUndefined [] ;;
     o <- lift (transformCellerHutOrder (resp_data response)) ;;
     ret (JObj o))
    (fun error =>
       throw (new_Error ("Failed to cancel order " ++ num_to_string id
                         ++ " in Ekasi Cart API"))).

Definition getOrderStatus (id : JSNumber) : M JSValue :=
  try_catch
    (response <-
       get ("/orders/" ++ num_to_string id ++ "/status") JUndefined [] ;;
     let data := resp_data response in
     id_ <- lift (getProp data "id") ;;
     ret (JObj
            [("id", id_);
             ("order_status",
              js_or (member data "order_status")
                    (JStr OrderStatusType_PENDING));
             ("payment_status",
              js_or (member data "payment_status")
                    (JStr PaymentStatusType_PENDING));
             ("updated_at", member data "updated_at")]))
    (fun error =>
       throw (new_Error ("Failed to get status for order "
                         ++ num_to_string id))).

Definition updateOrderStatus (id : JSNumber) (status : string) : M JSValue :=
  try_catch
    (response <-
       put ("/orders/" ++ num_to_string id ++ "/status")
           (JObj [("order_status", JStr status)]) ;;
     o <- lift (transformCellerHutOrder (resp_data response)) ;;
     ret (JObj o))
    (fun error =>
       throw (new_Error ("Failed to update status for order "
                         ++ num_to_string id))).

Definition updatePaymentStatus (id : JSNumber) (paymentStatus : string)
  : M JSValue :=
  try_catch
    (response <-
       put ("/orders/" ++ num_to_string id ++ "/payment-status")
           (JObj [("payment_status", JStr paymentStatus)]) ;;
     o <- lift (transformCellerHutOrder (resp_data response)) ;;
     ret (JObj o))
    (fun error =>
       throw (new_Error ("Failed to update payment status for order "
                         ++ num_to_string id))).

(** The [params] of [getOrdersByCustomer] and [getOrdersByShop]:
    [{ key: id, page: options.page || 1, limit: options.limit || 15,
       ...options }], with [options] defaulting to [{}]. *)
Definition listParams (key : string) (id : JSNumber) (options : JSValue)
  : Result JSValue :=
  let options :=
    match options with
    | JUndefined => JObj []
    | _ => options
    end in
  match getProp options "page" with
  | Throw e => Throw e
  | Ok page_ =>
      Ok (JObj (spread [(key, JNum id);
                        ("page", js_or page_ (num 1));
                        ("limit", js_or (member options "limit") (num 15))]
                       (ownProps options)))
  end.

Definition getOrdersByCustomer (customerId : JSNumber) (options : JSValue)
  : M JSValue :=
  try_catch
    (params <- lift (listParams "customer_id" customerId options) ;;
     response <- get "/orders" params [] ;;
     transformedData <- lift (transformList (resp_data response)) ;;
     pagination <- lift (transformPagination (resp_data response)) ;;
     ret (paginator transformedData pagination))
    (fun error =>
       throw (new_Error ("Failed to fetch orders for customer "
                         ++ num_to_string customerId))).

Definition getOrdersByShop (shopId : JSNumber) (options : JSValue)
  : M JSValue :=
  try_catch
    (params <- lift (listParams "shop_id" shopId options) ;;
     response <- get "/orders" params [] ;;
     transformedData <- lift (transformList (resp_data response)) ;;
     pagination <- lift (transformPagination (resp_data response)) ;;
     ret (paginator transformedData pagination))
    (fun error =>
       throw (new_Error ("Failed to fetch orders for shop "
                         ++ num_to_string shopId))).

Definition processPayment (orderId : JSNumber) (paymentData : JSValue)
  : M JSValue :=
  try_catch
    (response <-
       post ("/orders/" ++ num_to_string orderId ++ "/payment")
            paymentData [] ;;
     let data := resp_data response in
     success <- lift (getProp data "success") ;;
     ret (JObj
            [("success", js_or success (JBool true));
             ("payment_intent", member data "payment_intent");
             ("transaction_id", member data "transaction_id");
             ("message",
              js_or (member data "message")
                    (JStr "Payment processed successfully"))]))
    (fun error =>
       throw (new_Error ("Failed to process payment for order "
                         ++ num_to_string orderId))).

Definition getOrderInvoice (orderId : JSNumber) : M JSValue :=
  try_catch
    (response <-
       get ("/orders/" ++ num_to_string orderId ++ "/invoice")
           JUndefined [] ;;
     let data := resp_data response in
     invoice_url <- lift (getProp data "invoice_url") ;;
     ret (JObj
            [("invoice_url", invoice_url);
             ("invoice_number", member data "invoice_number");
             ("generated_at", member data "generated_at")]))
    (fun error =>
       throw (new_Error ("Failed to get invoice for order "
                         ++ num_to_string orderId))).

Definition getOrderTracking (trackingNumber : string) : M JSValue :=
  try_catch
    (response <- get ("/orders/tracking/" ++ trackingNumber) JUndefined [] ;;
     let data := resp_data response in
     tracking_number_ <- lift (getProp data "tracking_number") ;;
     ret (JObj
            [("tracking_number", tracking_number_);
             ("status", member data "status");
             ("tracking_events",
              js_or (member data "tracking_events") (JArr []));
             ("estimated_delivery", member data "estimated_delivery");
             ("carrier", member data "carrier")]))
    (fun error =>
       throw (new_Error ("Failed to get tracking for order "
                         ++ trackingNumber))).

Definition verifyCheckout (checkoutData : JSValue) (token : option string)
  : M JSValue :=
  try_catch
    (let headers := authHeaders token in
     response <-
       post "/ecommerce/orders/verify-checkout" checkoutData headers ;;
     inner <- lift (getProp (resp_data response) "data") ;;
     unavailable_products <- lift (getProp inner "unavailable_products") ;;
     ret (JObj
            [("unavailable_products", js_or unavailable_products (JArr []));
             ("total_tax", js_or (member inner "total_tax") (num 0));
             ("shipping_charge",
              js_or (member inner "shipping_charge") (num 0));
             ("shipping_zone", js_or (member inner "shipping_zone") (JStr ""));
             ("estimated_delivery",
              js_or (member inner "estimated_delivery") (JStr ""));
             ("available_coupons",
              js_or (member inner "available_coupons") (JArr []))]))
    (fun error => throw (new_Error "Failed to verify checkout data")).

Definition getOrderAnalytics (shopId : JSValue) : M JSValue :=
  try_catch
    (let params := setIf (truthy shopId) "shop_id" shopId [] in
     response <- get "/orders/analytics" (JObj params) [] ;;
     let data := resp_data response in
     total_orders <- lift (getProp data "total_orders") ;;
     ret (JObj
            [("total_orders", js_or total_orders (num 0));
             ("total_revenue", js_or (member data "total_revenue") (num 0));
             ("pending_orders", js_or (member data "pending_orders") (num 0));
             ("completed_orders",
              js_or (member data "completed_orders") (num 0));
             ("cancelled_orders",
              js_or (member data "cancelled_orders") (num 0));
             ("average_order_value",
              js_or (member data "average_order_value") (num 0))]))
    (fun error => ret zeroAnalytics).

(** The catch block shared in shape by the two payment-first calls:
    [if (error.response) throw new Error(error.response.data.message
    || withResponse); throw new Error(withoutResponse)]. *)
Definition forwardUpstreamMessage (withResponse withoutResponse : string)
           (error : JSError) : M JSValue :=
  match err_response error with
  | Some response =>
      message <- lift (getProp (resp_data response) "message") ;;
      text <- lift (ToString (js_or message (JStr withResponse))) ;;
      throw (new_Error text)
  | None => throw (new_Error withoutResponse)
  end.

Definition validateCheckoutForPayment (checkoutData : JSValue)
           (token : option string) : M JSValue :=
  try_catch
    (let headers := authHeaders token in
     response <- post "/ecommerce/checkout/validate" checkoutData headers ;;
     let data := resp_data response in
     inner <- lift (getProp data "data") ;;
     sessionId <- lift (getProp inner "sessionId") ;;
     ret (JObj
            [("sessionId", sessionId);
             ("validated", member inner "validated");
             ("message", member data "message")]))
    (forwardUpstreamMessage "Failed to validate checkout"
                            "Failed to validate checkout for payment").

Definition initiatePaymentFirst (paymentData : JSValue)
           (token : option string) : M JSValue :=
  try_catch
    (let headers := authHeaders token in
     response <-
       post "/ecommerce/payments/initiate-payment-first" paymentData
            headers ;;
     let data := resp_data response in
     transactionId <- lift (getProp data "transactionId") ;;
     ret (JObj
            [("transactionId", transactionId);
             ("checkoutId", member data "checkoutId");
             ("paymentUrl", member data "paymentUrl");
             ("status", member data "status");
             ("message", member data "message")]))
    (forwardUpstreamMessage "Failed to initiate payment"
                            "Failed to initiate payment").

Definition getCheckoutSession (sessionId : string) (token : option string)
  : M JSValue :=
  try_catch
    (let headers := authHeaders token in
     response <-
       get ("/ecommerce/checkout/session/" ++ sessionId) JUndefined headers ;;
     lift (getProp (resp_data response) "data"))
    (fun error => throw (new_Error "Failed to get checkout session")).

Definition verifyPaymentForOrder (data : JSValue) (token : option string)
  : M JSValue :=
  try_catch
    (checkoutId <- lift (getProp data "checkoutId") ;;
     let headers := authHeaders token in
     response <-
       post "/ecommerce/payments/verify-for-order" data headers ;;
     ret (resp_data response))
    (fun error => throw (new_Error "Failed to verify payment for order")).

(** One call of a method of the service, with its arguments. *)
Inductive Call : Type :=
| CallCreate (createOrderDto : JSValue) (token : option string)
| CallGetOrders (dto : GetOrdersDto) (token : option string)
| CallGetOrderByIdOrTrackingNumber (id : string) (token : option string)
| CallUpdate (id : JSNumber) (updateOrderDto : JSValue)
| CallCancel (id : JSNumber)
| CallGetOrderStatus (id : JSNumber)
| CallUpdateOrderStatus (id : JSNumber) (status : string)
| CallUpdatePaymentStatus (id : JSNumber) (paymentStatus : string)
| CallGetOrdersByCustomer (customerId : JSNumber) (options : JSValue)
| CallGetOrdersByShop (shopId : JSNumber) (options : JSValue)
| CallProcessPayment (orderId : JSNumber) (paymentData : JSValue)
| CallGetOrderInvoice (orderId : JSNumber)
| CallGetOrderTracking (trackingNumber : string)
| CallVerifyCheckout (checkoutData : JSValue) (token : option string)
| CallGetOrderAnalytics (shopId : JSValue)
| CallValidateCheckoutForPayment (checkoutData : JSValue)
                                 (token : option string)
| CallInitiatePaymentFirst (paymentData : JSValue) (token : option string)
| CallGetCheckoutSession (sessionId : string) (token : option string)
| CallVerifyPaymentForOrder (data : JSValue) (token : option string).

Definition invoke (c : Call) : M JSValue :=
  match c with
  | CallCreate dto token => create dto token
  | CallGetOrders dto token => getOrders dto token
  | CallGetOrderByIdOrTrackingNumber id token =>
      getOrderByIdOrTrackingNumber id token
  | CallUpdate id dto => update id dto
  | CallCancel id => cancel id
  | CallGetOrderStatus id => getOrderStatus id
  | CallUpdateOrderStatus id status => updateOrderStatus id status
  | CallUpdatePaymentStatus id status => updatePaymentStatus id status
  | CallGetOrdersByCustomer id options => getOrdersByCustomer id options
  | CallGetOrdersByShop id options => getOrdersByShop id options
  | CallProcessPayment id paymentData => processPayment id paymentData
  | CallGetOrderInvoice id => getOrderInvoice id
  | CallGetOrderTracking trackingNumber => getOrderTracking trackingNumber
  | CallVerifyCheckout checkoutData token => verifyCheckout checkoutData token
  | CallGetOrderAnalytics shopId => getOrderAnalytics shopId
  | CallValidateCheckoutForPayment checkoutData token =>
      validateCheckoutForPayment checkoutData token
  | CallInitiatePaymentFirst paymentData token =>
      initiatePaymentFirst paymentData token
  | CallGetCheckoutSession sessionId token =>
      getCheckoutSession sessionId token
  | CallVerifyPaymentForOrder data token => verifyPaymentForOrder data token
  end.

End Service.

End CellerHutOrdersService.

(* ================================================================== *)
(** * Instances for running the service on concrete inputs *)
(* ================================================================== *)

Module Samples.

Import CellerHutClient CellerHutOrdersService.

(** A transformer in the style of the missing module: it renames a few
    fields of the remote order, reads page metadata off the body, and
    passes a draft through.  Like any property read, it throws on [null]
    and [undefined]. *)
Definition sampleTransformOrder (o : JSValue) : Result JSObject :=
  match getProp o "id" with
  | Throw e => Throw e
  | Ok id =>
      Ok [("id", id);
          ("tracking_number", member o "tracking_number");
          ("order_status", member o "order_status");
          ("total", member o "grand_total")]
  end.

Definition samplePagination (body : JSValue) : Result JSObject :=
  match getProp body "current_page" with
  | Throw e => Throw e
  | Ok current_page =>
      Ok [("current_page", js_or current_page (num 1));
          ("per_page", js_or (member body "per_page") (num 15));
          ("total", js_or (member body "total") (num 0))]
  end.

#[local] Instance sampleTransformer : DataTransformer := {
  transformCellerHutOrder := sampleTransformOrder;
  transformPagination := samplePagination;
  transformOrderForCellerHut := fun dto => Ok dto
}.


#[local] Instance sampleEntity : OrderEntity := {
  OrderStatusType_PENDING := "order-pending";
  PaymentStatusType_PENDING := "payment-pending"
}.

(** [Number] on the values the examples pass: exact on numbers, booleans,
    [null], [undefined] and strings of decimal digits; other strings are
    not parsed and give NaN. *)
#[local] Instance sampleRuntime : Runtime := {
  toNumber := fun v =>
    match v with
    | JNum n => n
    | JBool true => NDec 1
    | JBool false | JNull => NDec 0
    | JStr s =>
        match NilEmpty.uint_of_string s with
        | Some u => NDec (Z.of_uint u)
        | None => NNaN
        end
    | _ => NNaN
    end
}.

(** A network that answers every request with the same 2xx response. *)
Definition answering (status : Z) (body : JSValue) : Network :=
  {| upstream := fun _ => Resolved (mkResponse status body) |}.

(** An [AxiosError] for a response outside 2xx. *)
Definition badResponse (status : Z) (body : JSValue) : JSError :=
  mkJSError "AxiosError"
            ("Request failed with status code "
               ++ NilZero.string_of_int (Z.to_int status))
            None None (Some "ERR_BAD_RESPONSE")
            (Some (mkResponse status body)).

(** A network that fails every request with the same error. *)
Definition failing (error : JSError) : Network :=
  {| upstream := fun _ => Rejected error |}.

(** A network on which one path is served and every other request gets a
    404 with an error envelope. *)
Definition servingOnly (url : string) (body : JSValue) : Network :=
  {| upstream := fun req =>
       if req_url req =? url
       then Resolved (mkResponse 200 body)
       else Rejected
              (badResponse 404
                 (JObj [("status", JStr "error");
                        ("message", JStr "Order not found")])) |}.

Definition idle : ClientState := mkClientState None [].

Definition timeoutError : JSError :=
  mkJSError "AxiosError" "timeout of 12000ms exceeded" None None
            (Some "ECONNABORTED") None.

(** Bodies and arguments of the worked cases. *)

Definition envelope (D : JSValue) : JSValue :=
  JObj [("status", JStr "success"); ("message", JStr "OK"); ("data", D)].

Definition errorEnvelope (message : JSValue) : JSValue :=
  JObj [("status", JStr "error"); ("message", message);
        ("errors", JObj [("email", JArr [JStr "taken"])])].

Definition anyRequest : Request :=
  mkRequest POST "/ecommerce/orders" (JObj []) JUndefined (mergeHeaders []).

Definition trackedOrder : JSValue :=
  JObj [("id", num 7); ("tracking_number", JStr "T123");
        ("order_status", JStr "processing");
        ("tracking_enabled", JBool true); ("tookan_job_id", num 991);
        ("tracking_url", JStr "https://track/991");
        ("delivery_service", JStr "tookan")].

End Samples.

(* ================================================================== *)
(** * Properties *)
(* ================================================================== *)

Import CellerHutClient CellerHutOrdersService.

(** The body [{ status: "success", data: D, ... }] with [D] not
    [undefined]. *)
Definition SuccessEnvelope (body D : JSValue) : Prop :=
  exists fields,
    body = JObj fields
    /\ lookup "status" fields = Some (JStr "success")
    /\ lookup "data" fields = Some D
    /\ D <> JUndefined.

(** The body is an object [{ status: "error", ... }]. *)
Definition ErrorEnvelope (body : JSValue) : Prop :=
  exists fields,
    body = JObj fields /\ lookup "status" fields = Some (JStr "error").

(** The failure carries a response whose body is an error envelope. *)
Definition CarriesErrorEnvelope (error : JSError) : Prop :=
  exists response,
    err_response error = Some response
    /\ ErrorEnvelope (resp_data response).

(** The outcome of an async computation started in state [st]. *)
Definition outcome {A} (m : M A) (st : ClientState) : Result A := snd (m st).

(** The requests it sent, in order. *)
Definition requests {A} (m : M A) (st : ClientState) : list Request :=
  skipn (List.length (sent st)) (sent (fst (m st))).

(** The body the service sees: the response after the success handler. *)
Definition visibleBody (response : Response) : JSValue :=
  resp_data (responseFulfilled response).

(** The message each method raises from its catch block, for the methods
    whose catch block raises one message whatever the error was. *)
Definition failureMessage (c : Call) : option string :=
  match c with
  | CallCreate _ _ => Some "Failed to create order in Ekasi Cart API"
  | CallGetOrders _ _ => Some "Failed to fetch orders from Ekasi Cart API"
  | CallGetOrderByIdOrTrackingNumber id _ =>
      Some ("Order with ID/tracking " ++ dquote ++ id ++ dquote
            ++ " not found")
  | CallUpdate id _ =>
      Some ("Failed to update order " ++ num_to_string id
            ++ " in Ekasi Cart API")
  | CallCancel id =>
      Some ("Failed to cancel order " ++ num_to_string id
            ++ " in Ekasi Cart API")
  | CallGetOrderStatus id =>
      Some ("Failed to get status for order " ++ num_to_string id)
  | CallUpdateOrderStatus id _ =>
      Some ("Failed to update status for order " ++ num_to_string id)
  | CallUpdatePaymentStatus id _ =>
      Some ("Failed to update payment status for order "
            ++ num_to_string id)
  | CallGetOrdersByCustomer id _ =>
      Some ("Failed to fetch orders for customer " ++ num_to_string id)
  | CallGetOrdersByShop id _ =>
      Some ("Failed to fetch orders for shop " ++ num_to_string id)
  | CallProcessPayment id _ =>
      Some ("Failed to process payment for order " ++ num_to_string id)
  | CallGetOrderInvoice id =>
      Some ("Failed to get invoice for order " ++ num_to_string id)
  | CallGetOrderTracking trackingNumber =>
      Some ("Failed to get tracking for order " ++ trackingNumber)
  | CallVerifyCheckout _ _ => Some "Failed to verify checkout data"
  | CallGetOrderAnalytics _ => None
  | CallValidateCheckoutForPayment _ _ => None
  | CallInitiatePaymentFirst _ _ => None
  | CallGetCheckoutSession _ _ => Some "Failed to get checkout session"
  | CallVerifyPaymentForOrder _ _ =>
      Some "Failed to verify payment for order"
  end.

(** The requests each method sends: method and path, in the order sent. *)
Definition endpoints (c : Call) : list (Method * string) :=
  match c with
  | CallCreate _ _ => [(POST, "/ecommerce/orders")]
  | CallGetOrders _ _ => [(GET, "/ecommerce/orders")]
  | CallGetOrderByIdOrTrackingNumber id _ =>
      [(GET, "/ecommerce/orders/" ++ id);
       (GET, "/ecommerce/orders/tracking/" ++ id)]
  | CallUpdate id _ => [(PUT, "/orders/" ++ num_to_string id)]
  | CallCancel id => [(POST, "/orders/" ++ num_to_string id ++ "/cancel")]
  | CallGetOrderStatus id =>
      [(GET, "/orders/" ++ num_to_string id ++ "/status")]
  | CallUpdateOrderStatus id _ =>
      [(PUT, "/orders/" ++ num_to_string id ++ "/status")]
  | CallUpdatePaymentStatus id _ =>
      [(PUT, "/orders/" ++ num_to_string id ++ "/payment-status")]
  | CallGetOrdersByCustomer _ _ => [(GET, "/orders")]
  | CallGetOrdersByShop _ _ => [(GET, "/orders")]
  | CallProcessPayment id _ =>
      [(POST, "/orders/" ++ num_to_string id ++ "/payment")]
  | CallGetOrderInvoice id =>
      [(GET, "/orders/" ++ num_to_string id ++ "/invoice")]
  | CallGetOrderTracking trackingNumber =>
      [(GET, "/orders/tracking/" ++ trackingNumber)]
  | CallVerifyCheckout _ _ => [(POST, "/ecommerce/orders/verify-checkout")]
  | CallGetOrderAnalytics _ => [(GET, "/orders/analytics")]
  | CallValidateCheckoutForPayment _ _ =>
      [(POST, "/ecommerce/checkout/validate")]
  | CallInitiatePaymentFirst _ _ =>
      [(POST, "/ecommerce/payments/initiate-payment-first")]
  | CallGetCheckoutSession sessionId _ =>
      [(GET, "/ecommerce/checkout/session/" ++ sessionId)]
  | CallVerifyPaymentForOrder _ _ =>
      [(POST, "/ecommerce/payments/verify-for-order")]
  end.

Section Endpoints.
Context {net : Network}.

(** Every request of the given method to the given path fails. *)
Definition Rejects (method : Method) (url : string) : Prop :=
  forall req,
    req_method req = method -> req_url req = url ->
    exists error, upstream req = Rejected error.

(** Every request of the given method to the given path is answered with
    the given response. *)
Definition Answers (method : Method) (url : string) (response : Response)
  : Prop :=
  forall req,
    req_method req = method -> req_url req = url ->
    upstream req = Resolved response.

(** The upstream fails the call: every request to one of the endpoints of
    the method fails. *)
Definition UpstreamFails (c : Call) : Prop :=
  forall method url, In (method, url) (endpoints c) -> Rejects method url.

(** Every request of the given method to the given path fails with the
    given error. *)
Definition FailsWith (method : Method) (url : string) (error : JSError)
  : Prop :=
  forall req,
    req_method req = method -> req_url req = url ->
    upstream req = Rejected error.

End Endpoints.

(** The same network behind a proxy that has already run the success
    handler on every answer. *)
Definition unwrapped (net : Network) : Network :=
  {| upstream := fun req =>
       match upstream req with
       | Resolved response => Resolved (responseFulfilled response)
       | Rejected error => Rejected error
       end |}.

(** The methods that read a field of the body they are answered with
    before anything else is done with it. *)
Definition readsResponseBody (c : Call) : bool :=
  match c with
  | CallCreate _ _
  | CallGetOrderStatus _
  | CallProcessPayment _ _
  | CallGetOrderInvoice _
  | CallGetOrderTracking _
  | CallVerifyCheckout _ _
  | CallGetCheckoutSession _ _ => true
  | _ => false
  end.

(** [headers[k]] *)
Fixpoint header (k : string) (h : list (string * string)) : option string :=
  match h with
  | [] => None
  | (k', v) :: rest => if k' =? k then Some v else header k rest
  end.

(** The token a call passes for itself, for the methods that take one. *)
Definition callToken (c : Call) : option string :=
  match c with
  | CallCreate _ token
  | CallGetOrders _ token
  | CallGetOrderByIdOrTrackingNumber _ token
  | CallVerifyCheckout _ token
  | CallValidateCheckoutForPayment _ token
  | CallInitiatePaymentFirst _ token
  | CallGetCheckoutSession _ token
  | CallVerifyPaymentForOrder _ token => token
  | _ => None
  end.

(** A token that passes [if (token)]: set and not empty. *)
Definition usable (token : option string) : option string :=
  match token with
  | Some t => if t =? "" then None else Some t
  | None => None
  end.

(** The [Authorization] header that results from the module's token and
    the call's own: the module's when usable, else the call's when usable,
    else none. *)
Definition authorization (moduleToken callerToken : option string)
  : option string :=
  match usable moduleToken with
  | Some t => Some ("Bearer " ++ t)
  | None =>
      match usable callerToken with
      | Some t => Some ("Bearer " ++ t)
      | None => None
      end
  end.

(** ** Reading objects *)

Lemma strict_eq_str_true (v : JSValue) (lit : string) :
  strict_eq_str v lit = true <-> v = JStr lit.
Proof.
  destruct v; simpl; split; intro E; try discriminate.
  - apply String.eqb_eq in E. now subst.
  - injection E as ->. apply String.eqb_refl.
Qed.

Lemma member_lookup (fields : JSObject) (k : string) (v : JSValue) :
  lookup k fields = Some v -> member (JObj fields) k = v.
Proof. simpl. now intros ->. Qed.

Lemma member_missing (fields : JSObject) (k : string) :
  lookup k fields = None -> member (JObj fields) k = JUndefined.
Proof. simpl. now intros ->. Qed.

Lemma is_defined_member (fields : JSObject) (k : string) :
  is_defined (member (JObj fields) k) = true ->
  exists D, lookup k fields = Some D /\ D <> JUndefined.
Proof.
  simpl. destruct (lookup k fields) as [D|]; [|discriminate].
  intro E. exists D. split; [reflexivity|]. intros ->. discriminate.
Qed.

(** The test of the success handler, as a property of the body. *)
Lemma success_test (body : JSValue) :
  truthy body && typeof_object body
  && (strict_eq_str (member body "status") "success"
      && is_defined (member body "data")) = true
  <-> SuccessEnvelope body (member body "data").
Proof.
  split.
  - intro T. apply andb_true_iff in T as [T1 T2].
    apply andb_true_iff in T1 as [_ T1].
    apply andb_true_iff in T2 as [T2 T3].
    destruct body; try discriminate T1; try discriminate T2.
    apply strict_eq_str_true in T2.
    apply is_defined_member in T3 as (D & LD & ND).
    exists fields. repeat split.
    + simpl in T2. destruct (lookup "status" fields); congruence.
    + rewrite (member_lookup _ _ _ LD). exact LD.
    + rewrite (member_lookup _ _ _ LD). exact ND.
  - intros (fields & -> & LS & LD & ND).
    rewrite (member_lookup _ _ _ LS).
    destruct (lookup "data" fields) as [D|] eqn:E; [|discriminate].
    rewrite (member_lookup _ _ _ E) in *.
    simpl. destruct D; try reflexivity. now elim ND.
Qed.

Lemma SuccessEnvelope_data (body D : JSValue) :
  SuccessEnvelope body D -> member body "data" = D.
Proof. intros (fields & -> & _ & LD & _). now apply member_lookup. Qed.

Lemma responseFulfilled_envelope (response : Response) (D : JSValue) :
  SuccessEnvelope (resp_data response) D ->
  responseFulfilled response = mkResponse (resp_status response) D.
Proof.
  intro E. pose proof (SuccessEnvelope_data _ _ E) as <-.
  apply success_test in E. unfold responseFulfilled.
  apply andb_true_iff in E as [-> ->]. reflexivity.
Qed.

Lemma responseFulfilled_other (response : Response) :
  (forall D, ~ SuccessEnvelope (resp_data response) D) ->
  responseFulfilled response = response.
Proof.
  intro N. unfold responseFulfilled.
  destruct (truthy (resp_data response) && typeof_object (resp_data response))
    eqn:T1; [|reflexivity].
  destruct (strict_eq_str (member (resp_data response) "status") "success"
            && is_defined (member (resp_data response) "data")) eqn:T2;
    [|reflexivity].
  exfalso. apply (N (member (resp_data response) "data")).
  apply success_test. now rewrite T1, T2.
Qed.

(** C1. The success handler of the adapter unwraps one level of envelope:
    a response whose body is [{status: "success", data: D}] with [D]
    defined comes back with body [D], status kept; a response whose body
    has any other shape comes back as it was, and handling it again
    leaves it as it was; and when [D] is itself no envelope, handling the
    unwrapped response again changes nothing. *)
Theorem responseFulfilled_unwraps_once (response : Response) :
  (forall D,
      SuccessEnvelope (resp_data response) D ->
      responseFulfilled response = mkResponse (resp_status response) D)
  /\ ((forall D, ~ SuccessEnvelope (resp_data response) D) ->
      responseFulfilled response = response
      /\ responseFulfilled (responseFulfilled response) = response)
  /\ (forall D,
         SuccessEnvelope (resp_data response) D ->
         (forall D', ~ SuccessEnvelope D D') ->
         responseFulfilled (responseFulfilled response)
         = responseFulfilled response).
Proof.
  split; [|split].
  - intros D E. now apply responseFulfilled_envelope.
  - intro N. rewrite !(responseFulfilled_other _ N). now split.
  - intros D E N. rewrite (responseFulfilled_envelope _ _ E).
    now apply responseFulfilled_other.
Qed.

(** ** The error handler *)

Lemma responseRejected_envelope (error : JSError) (response : Response)
      (fields : JSObject) :
  err_response error = Some response ->
  resp_data response = JObj fields ->
  lookup "status" fields = Some (JStr "error") ->
  responseRejected error
  = match ToString (js_or (member (JObj fields) "message")
                          (JStr "An error occurred")) with
    | Ok text =>
        mkJSError "Error" text (Some (resp_status response))
          (Some (js_or (member (JObj fields) "errors") (JObj [])))
          None None
    | Throw thrown => thrown
    end.
Proof.
  intros R B S. unfold responseRejected. rewrite R, B.
  rewrite (member_lookup _ _ _ S). reflexivity.
Qed.

Lemma responseRejected_plain (error : JSError) :
  ~ CarriesErrorEnvelope error ->
  responseRejected error = networkError error.
Proof.
  intro N. unfold responseRejected.
  destruct (err_response error) as [response|] eqn:R; [|reflexivity].
  destruct (truthy (resp_data response)); [|reflexivity].
  destruct (strict_eq_str (member (resp_data response) "status") "error")
    eqn:S; [|reflexivity].
  exfalso. apply N. exists response. split; [exact R|].
  apply strict_eq_str_true in S.
  destruct (resp_data response) as [| | | | | |fields]; try discriminate S.
  exists fields. split; [reflexivity|].
  simpl in S. destruct (lookup "status" fields); congruence.
Qed.

Section Adapter.
Context {net : Network}.

Lemma request_rejected (config : Request) (st : ClientState)
      (error : JSError) :
  upstream (requestFulfilled (authToken st) config) = Rejected error ->
  request config st
  = (mkClientState (authToken st)
       (sent st ++ [requestFulfilled (authToken st) config]),
     Throw (responseRejected error)).
Proof. intro U. unfold request. now rewrite U. Qed.

Lemma request_resolved (config : Request) (st : ClientState)
      (response : Response) :
  upstream (requestFulfilled (authToken st) config) = Resolved response ->
  request config st
  = (mkClientState (authToken st)
       (sent st ++ [requestFulfilled (authToken st) config]),
     Ok (responseFulfilled response)).
Proof. intro U. unfold request. now rewrite U. Qed.

(** C3, amended.  When a request fails with a response whose body is an
    object with [status: "error"]: if the body's [message] is a non-empty
    string, the adapter rejects with an error whose [statusCode] is the
    HTTP status of that response and whose message is that string; if the
    body's [message] is missing or falsy, it rejects with an error of the
    same [statusCode] whose message is the default "An error occurred". *)
Theorem error_envelope_rejection (config : Request) (st : ClientState)
        (error : JSError) (response : Response) (fields : JSObject) :
  upstream (requestFulfilled (authToken st) config) = Rejected error ->
  err_response error = Some response ->
  resp_data response = JObj fields ->
  lookup "status" fields = Some (JStr "error") ->
  (forall M,
      lookup "message" fields = Some (JStr M) -> M <> "" ->
      exists rejected,
        outcome (request config) st = Throw rejected
        /\ err_statusCode rejected = Some (resp_status response)
        /\ err_message rejected = M)
  /\ (forall M,
         lookup "message" fields = Some M -> truthy M = false ->
         exists rejected,
           outcome (request config) st = Throw rejected
           /\ err_statusCode rejected = Some (resp_status response)
           /\ err_message rejected = "An error occurred")
  /\ (lookup "message" fields = None ->
      exists rejected,
        outcome (request config) st = Throw rejected
        /\ err_statusCode rejected = Some (resp_status response)
        /\ err_message rejected = "An error occurred").
Proof.
  intros U R B S. unfold outcome.
  rewrite (request_rejected _ _ _ U). simpl snd.
  rewrite (responseRejected_envelope _ _ _ R B S).
  split; [|split].
  - intros M L NE. rewrite (member_lookup _ _ _ L). unfold js_or. simpl.
    destruct (String.eqb_spec M ""); [contradiction|].
    simpl. eexists. repeat split.
  - intros M L F. rewrite (member_lookup _ _ _ L). unfold js_or.
    rewrite F. eexists. repeat split.
  - intros L. rewrite (member_missing _ _ L). eexists. repeat split.
Qed.

(** C9.  When a request fails and the failure carries no error envelope,
    the adapter rejects with the fixed timeout error on code ECONNABORTED,
    with the fixed network error on code ERR_NETWORK, and with the
    original error itself on anything else. *)
Theorem plain_failure_rejection (config : Request) (st : ClientState)
        (error : JSError) :
  upstream (requestFulfilled (authToken st) config) = Rejected error ->
  ~ CarriesErrorEnvelope error ->
  (err_code error = Some "ECONNABORTED" ->
   outcome (request config) st
   = Throw (new_Error "Request timeout - Ekasi Cart API not responding"))
  /\ (err_code error = Some "ERR_NETWORK" ->
      outcome (request config) st
      = Throw (new_Error "Network error - Unable to reach Ekasi Cart API"))
  /\ (err_code error <> Some "ECONNABORTED" ->
      err_code error <> Some "ERR_NETWORK" ->
      outcome (request config) st = Throw error).
Proof.
  intros U N. unfold outcome. rewrite (request_rejected _ _ _ U). simpl snd.
  rewrite (responseRejected_plain _ N). unfold networkError.
  split; [|split].
  - now intros ->.
  - now intros ->.
  - intros N1 N2. destruct (err_code error) as [c|]; [|reflexivity].
    destruct (String.eqb_spec c "ECONNABORTED") as [->|_]; [now elim N1|].
    destruct (String.eqb_spec c "ERR_NETWORK") as [->|_]; [now elim N2|].
    reflexivity.
Qed.

End Adapter.

(** ** The requests of the service *)

Lemma requestFulfilled_keeps (token : option string) (config : Request) :
  req_method (requestFulfilled token config) = req_method config
  /\ req_url (requestFulfilled token config) = req_url config
  /\ req_data (requestFulfilled token config) = req_data config
  /\ req_params (requestFulfilled token config) = req_params config.
Proof.
  unfold requestFulfilled. destruct token as [t|]; [|now repeat split].
  destruct (negb (t =? "")); now repeat split.
Qed.

Lemma lookup_replaceField_same (k : string) (v : JSValue) (o : JSObject) :
  lookup k o <> None -> lookup k (replaceField k v o) = Some v.
Proof.
  induction o as [|[k' v'] o IH]; simpl; intro L.
  - now elim L.
  - destruct (String.eqb_spec k' k) as [->|N]; simpl.
    + now rewrite String.eqb_refl.
    + apply String.eqb_neq in N. rewrite N. now apply IH.
Qed.

Lemma lookup_replaceField_other (k k' : string) (v : JSValue)
      (o : JSObject) :
  k' <> k -> lookup k (replaceField k' v o) = lookup k o.
Proof.
  intro N. induction o as [|[k0 v0] o IH]; simpl; [reflexivity|].
  destruct (String.eqb_spec k0 k') as [->|N']; simpl.
  - apply String.eqb_neq in N. now rewrite N.
  - now rewrite IH.
Qed.

Lemma lookup_insertIndex_same (n : N) (k : string) (v : JSValue)
      (o : JSObject) :
  lookup k o = None -> lookup k (insertIndex n k v o) = Some v.
Proof.
  induction o as [|[k' v'] o IH]; simpl; intro L.
  - now rewrite String.eqb_refl.
  - destruct (String.eqb_spec k' k) as [->|N]; [discriminate L|].
    apply String.eqb_neq in N.
    destruct (arrayIndex k') as [n'|]; [destruct (n' <? n)%N|]; simpl;
      rewrite ?N, ?String.eqb_refl; auto.
Qed.

Lemma lookup_insertIndex_other (n : N) (k k' : string) (v : JSValue)
      (o : JSObject) :
  k' <> k -> lookup k (insertIndex n k' v o) = lookup k o.
Proof.
  intro N. apply String.eqb_neq in N.
  induction o as [|[k0 v0] o IH]; simpl.
  - now rewrite N.
  - destruct (arrayIndex k0) as [n0|]; [destruct (n0 <? n)%N|]; simpl;
      rewrite ?N, ?IH; reflexivity.
Qed.

Lemma lookup_app_same (k : string) (v : JSValue) (o : JSObject) :
  lookup k o = None -> lookup k (o ++ [(k, v)])%list = Some v.
Proof.
  induction o as [|[k' v'] o IH]; simpl; intro L.
  - now rewrite String.eqb_refl.
  - destruct (k' =? k); [discriminate L|auto].
Qed.

Lemma lookup_app_other (k k' : string) (v : JSValue) (o : JSObject) :
  k' <> k -> lookup k (o ++ [(k', v)])%list = lookup k o.
Proof.
  intro N. apply String.eqb_neq in N.
  induction o as [|[k0 v0] o IH]; simpl.
  - now rewrite N.
  - now rewrite IH.
Qed.

Lemma lookup_setField_same (k : string) (v : JSValue) (o : JSObject) :
  lookup k (setField k v o) = Some v.
Proof.
  unfold setField. destruct (lookup k o) as [x|] eqn:L.
  - apply lookup_replaceField_same. congruence.
  - destruct (arrayIndex k).
    + now apply lookup_insertIndex_same.
    + now apply lookup_app_same.
Qed.

Lemma lookup_setField_other (k k' : string) (v : JSValue) (o : JSObject) :
  k' <> k -> lookup k (setField k' v o) = lookup k o.
Proof.
  intro N. unfold setField. destruct (lookup k' o).
  - now apply lookup_replaceField_other.
  - destruct (arrayIndex k').
    + now apply lookup_insertIndex_other.
    + now apply lookup_app_other.
Qed.

(** Spreading an object that lacks a key leaves that key as it was. *)
Lemma lookup_spread_absent (k : string) (src base : JSObject) :
  lookup k src = None -> lookup k (spread base src) = lookup k base.
Proof.
  unfold spread. revert base.
  induction src as [|[k' v'] src IH]; intros base L; simpl in *.
  - reflexivity.
  - destruct (String.eqb_spec k' k) as [->|N]; [discriminate|].
    rewrite (IH _ L). now apply lookup_setField_other.
Qed.

Lemma lookup_absent (k : string) (o : JSObject) :
  ~ In k (map fst o) -> lookup k o = None.
Proof.
  induction o as [|[k' v'] o IH]; simpl; intro N; [reflexivity|].
  destruct (String.eqb_spec k' k) as [->|_].
  - elim N. now left.
  - apply IH. intro I. apply N. now right.
Qed.

(** Spreading an object with distinct keys sets each of its keys. *)
Lemma lookup_spread_present (k : string) (v : JSValue)
      (src base : JSObject) :
  NoDup (map fst src) ->
  lookup k src = Some v -> lookup k (spread base src) = Some v.
Proof.
  unfold spread. revert base.
  induction src as [|[k' v'] src IH]; intros base D L; simpl in *.
  - discriminate L.
  - inversion D as [|? ? N D']; subst.
    destruct (String.eqb_spec k' k) as [->|_].
    + injection L as <-.
      pose proof (lookup_spread_absent k src (setField k v' base)
                    (lookup_absent _ _ N)) as A.
      unfold spread in A. rewrite A. apply lookup_setField_same.
    + now apply IH.
Qed.

Lemma truthy_js_and (a b : JSValue) :
  truthy (js_and a b) = truthy a && truthy b.
Proof. unfold js_and. destruct (truthy a) eqn:E; [reflexivity|exact E]. Qed.

Lemma skipn_length_app {A} (l l' : list A) :
  skipn (List.length l) (l ++ l') = l'.
Proof. induction l as [|x l IH]; [reflexivity|exact IH]. Qed.

Ltac async :=
  unfold outcome, requests, try_catch, bind, lift, ret, throw,
         get, post, put, request in *.

Section Facade.
Context {net : Network} {transformer : DataTransformer}
        {entity : OrderEntity} {runtime : Runtime}.




(** C8.  [updateOrderStatus(id, s)] sends exactly one request: a PUT to
    [/orders/{id}/status] with body [{order_status: s}]; when that request
    is answered and the transformer returns on the visible body, the call
    returns the transformed body.  For id 42 and status "completed" the
    path is [/orders/42/status] and the body [{order_status:
    "completed"}]. *)
Theorem updateOrderStatus_single_put (id : JSNumber) (status : string)
        (st : ClientState) :
  exists req,
    requests (updateOrderStatus id status) st = [req]
    /\ req_method req = PUT
    /\ req_url req = "/orders/" ++ num_to_string id ++ "/status"
    /\ req_data req = JObj [("order_status", JStr status)]
    /\ (forall response o,
           upstream req = Resolved response ->
           transformCellerHutOrder (visibleBody response) = Ok o ->
           outcome (updateOrderStatus id status) st = Ok (JObj o))
    /\ (id = NDec 42 -> status = "completed" ->
        req_url req = "/orders/42/status"
        /\ req_data req = JObj [("order_status", JStr "completed")]).
Proof.
  set (config := mkRequest PUT ("/orders/" ++ num_to_string id ++ "/status")
                   (JObj [("order_status", JStr status)]) JUndefined
                   (mergeHeaders [])).
  exists (requestFulfilled (authToken st) config).
  destruct (requestFulfilled_keeps (authToken st) config)
    as (Km & Ku & Kd & _).
  split; [|split; [exact Km|split; [exact Ku|split; [exact Kd|split]]]].
  - unfold updateOrderStatus. async. fold config.
    destruct (upstream (requestFulfilled (authToken st) config));
      [destruct (transformCellerHutOrder _)|];
      simpl; apply skipn_length_app.
  - intros response o U T. unfold updateOrderStatus, visibleBody in *.
    async. fold config. rewrite U. simpl. now rewrite T.
  - intros -> ->. rewrite Ku, Kd. now split.
Qed.

Lemma post_answered (url : string) (data : JSValue)
      (headers : list (string * string)) (st : ClientState)
      (response : Response) :
  Answers POST url response ->
  post url data headers st
  = (mkClientState (authToken st)
       (sent st ++ [requestFulfilled (authToken st)
                      (mkRequest POST url data JUndefined
                                 (mergeHeaders headers))]),
     Ok (responseFulfilled response)).
Proof.
  intro A. unfold post. apply request_resolved.
  apply A; apply requestFulfilled_keeps.
Qed.

Lemma get_answered (url : string) (params : JSValue)
      (headers : list (string * string)) (st : ClientState)
      (response : Response) :
  Answers GET url response ->
  get url params headers st
  = (mkClientState (authToken st)
       (sent st ++ [requestFulfilled (authToken st)
                      (mkRequest GET url JUndefined params
                                 (mergeHeaders headers))]),
     Ok (responseFulfilled response)).
Proof.
  intro A. unfold get. apply request_resolved.
  apply A; apply requestFulfilled_keeps.
Qed.

Lemma get_rejected (url : string) (params : JSValue)
      (headers : list (string * string)) (st : ClientState) :
  Rejects GET url ->
  exists error,
    get url params headers st
    = (mkClientState (authToken st)
         (sent st ++ [requestFulfilled (authToken st)
                        (mkRequest GET url JUndefined params
                                   (mergeHeaders headers))]),
       Throw (responseRejected error)).
Proof.
  intro R.
  destruct (R (requestFulfilled (authToken st)
                 (mkRequest GET url JUndefined params
                            (mergeHeaders headers)))) as [error E];
    try apply requestFulfilled_keeps.
  exists error. unfold get. now apply request_rejected.
Qed.

(** C7.  When the draft transforms and the POST to [/ecommerce/orders] is
    answered with a visible body that is an object: if the body has an
    [order] and a [payment], both truthy (as every object is), [create]
    returns the transformed [order] with [payment] set to that payment,
    unchanged; if the body has no [payment], it returns the transformed
    order (the body's [order], or the body itself when it is a bare order)
    with nothing attached; for the body [{order: {id: 1, ...}, payment:
    {url: "https://pay"}}] the returned order has [payment.url] equal to
    "https://pay". *)
Theorem create_attaches_payment (createOrderDto draft : JSValue)
        (token : option string) (st : ClientState) (response : Response)
        (fields : JSObject) :
  transformOrderForCellerHut createOrderDto = Ok draft ->
  Answers POST "/ecommerce/orders" response ->
  visibleBody response = JObj fields ->
  (forall O P o,
      lookup "order" fields = Some O -> truthy O = true ->
      lookup "payment" fields = Some P -> truthy P = true ->
      transformCellerHutOrder O = Ok o ->
      outcome (create createOrderDto token) st
      = Ok (JObj (setField "payment" P o))
      /\ lookup "payment" (setField "payment" P o) = Some P)
  /\ (forall O o,
         lookup "order" fields = Some O -> truthy O = true ->
         lookup "payment" fields = None ->
         transformCellerHutOrder O = Ok o ->
         outcome (create createOrderDto token) st = Ok (JObj o))
  /\ (forall o,
         lookup "order" fields = None ->
         lookup "payment" fields = None ->
         transformCellerHutOrder (JObj fields) = Ok o ->
         outcome (create createOrderDto token) st = Ok (JObj o))
  /\ (forall rest o,
         fields = [("order", JObj (("id", num 1) :: rest));
                   ("payment", JObj [("url", JStr "https://pay")])] ->
         transformCellerHutOrder (JObj (("id", num 1) :: rest)) = Ok o ->
         exists order,
           outcome (create createOrderDto token) st = Ok order
           /\ member (member order "payment") "url" = JStr "https://pay").
Proof.
  intros D A B.
  assert (Run : forall O P o,
             js_or (member (JObj fields) "order") (JObj fields) = O ->
             js_or (member (JObj fields) "payment") JNull = P ->
             transformCellerHutOrder O = Ok o ->
             outcome (create createOrderDto token) st
             = Ok (JObj (setIf (truthy P) "payment" P o))).
  { intros O P o EO EP T. unfold create, outcome, try_catch, bind, lift, ret.
    rewrite D, (post_answered _ _ _ _ _ A).
    unfold visibleBody in B. rewrite B. cbn [getProp nullish].
    rewrite EO, EP, T. reflexivity. }
  split; [|split; [|split]].
  - intros O P o LO TO LP TP T. split; [|apply lookup_setField_same].
    rewrite (Run O P o); [now rewrite TP| | |exact T].
    + rewrite (member_lookup _ _ _ LO). unfold js_or. now rewrite TO.
    + rewrite (member_lookup _ _ _ LP). unfold js_or. now rewrite TP.
  - intros O o LO TO LP T.
    rewrite (Run O JNull o); [reflexivity| | |exact T].
    + rewrite (member_lookup _ _ _ LO). unfold js_or. now rewrite TO.
    + now rewrite (member_missing _ _ LP).
  - intros o LO LP T.
    rewrite (Run (JObj fields) JNull o); [reflexivity| | |exact T].
    + now rewrite (member_missing _ _ LO).
    + now rewrite (member_missing _ _ LP).
  - intros rest o -> T. eexists. split.
    + apply (Run (JObj (("id", num 1) :: rest))
                 (JObj [("url", JStr "https://pay")]) o);
        [reflexivity|reflexivity|exact T].
    + cbn [truthy setIf].
      rewrite (member_lookup _ "payment" _ (lookup_setField_same _ _ _)).
      reflexivity.
Qed.


(** The fallback path, run: the by-id GET fails, the tracking GET is
    answered with an object, the transformer returns. *)
Lemma getOrderByIdOrTrackingNumber_run (id : string) (token : option string)
      (st : ClientState) (response : Response) (fields o : JSObject) :
  Rejects GET ("/ecommerce/orders/" ++ id) ->
  Answers GET ("/ecommerce/orders/tracking/" ++ id) response ->
  visibleBody response = JObj fields ->
  transformCellerHutOrder (JObj fields) = Ok o ->
  outcome (getOrderByIdOrTrackingNumber id token) st
  = if truthy (member (JObj fields) "tracking_enabled")
       && truthy (member (JObj fields) "tookan_job_id")
    then
      match toString (member (JObj fields) "tracking_number") with
      | Some _ =>
          Ok (JObj (setField "gps_tracking" (gpsTracking (JObj fields)) o))
      | None =>
          Throw (new_Error ("Order with ID/tracking " ++ dquote ++ id
                            ++ dquote ++ " not found"))
      end
    else Ok (JObj o).
Proof.
  intros R A B T.
  unfold getOrderByIdOrTrackingNumber, outcome, try_catch, bind, lift, ret,
    throw.
  destruct (get_rejected _ JUndefined (authHeaders token) st R)
    as [error ->].
  rewrite (get_answered _ _ _ _ _ A).
  unfold visibleBody in B. rewrite B, T. cbn [getProp nullish].
  rewrite truthy_js_and.
  destruct (truthy (member (JObj fields) "tracking_enabled")
            && truthy (member (JObj fields) "tookan_job_id"));
    [|reflexivity].
  unfold ToString.
  now destruct (toString (member (JObj fields) "tracking_number")).
Qed.

(** C4, amended.  When the GET by id fails and the GET by tracking number
    is answered with a visible body that is an object on which the
    transformer returns, [getOrderByIdOrTrackingNumber] returns the
    transformed body as it is if the body's [tracking_enabled] or
    [tookan_job_id] is falsy; and if both are truthy and the body's
    [tracking_number] converts to a string (as every string, number,
    boolean, [null] and missing value does), it returns the transformed
    body with [gps_tracking] set to the object derived from the body. *)
Theorem getOrderByIdOrTrackingNumber_fallback (id : string)
        (token : option string) (st : ClientState) (response : Response)
        (fields o : JSObject) :
  Rejects GET ("/ecommerce/orders/" ++ id) ->
  Answers GET ("/ecommerce/orders/tracking/" ++ id) response ->
  visibleBody response = JObj fields ->
  transformCellerHutOrder (JObj fields) = Ok o ->
  let body := JObj fields in
  let tracked :=
    truthy (member body "tracking_enabled")
    && truthy (member body "tookan_job_id") in
  (tracked = false ->
   outcome (getOrderByIdOrTrackingNumber id token) st = Ok (JObj o))
  /\ (tracked = true ->
      toString (member body "tracking_number") <> None ->
      outcome (getOrderByIdOrTrackingNumber id token) st
      = Ok (JObj
              (setField "gps_tracking"
                 (JObj [("trackingEnabled", member body "tracking_enabled");
                        ("trackingUrl", member body "tracking_url");
                        ("deliveryService", member body "delivery_service");
                        ("orderId", member body "id");
                        ("orderNumber", member body "tracking_number");
                        ("orderStatus", member body "order_status")])
                 o))).
Proof.
  intros R A B T body tracked.
  rewrite (getOrderByIdOrTrackingNumber_run _ _ _ _ _ _ R A B T).
  fold body. fold tracked. split.
  - intros ->. reflexivity.
  - intros -> P. destruct (toString (member body "tracking_number"));
      [reflexivity|now elim P].
Qed.

(** Whatever the transformer, when tracking is on, the tracking number
    prints and the transformed order has no [gps_tracking] of its own, the
    result of the fallback is not the transformed order. *)
Lemma getOrderByIdOrTrackingNumber_not_bare (id : string)
      (token : option string) (st : ClientState) (response : Response)
      (fields o : JSObject) :
  Rejects GET ("/ecommerce/orders/" ++ id) ->
  Answers GET ("/ecommerce/orders/tracking/" ++ id) response ->
  visibleBody response = JObj fields ->
  transformCellerHutOrder (JObj fields) = Ok o ->
  truthy (member (JObj fields) "tracking_enabled")
  && truthy (member (JObj fields) "tookan_job_id") = true ->
  toString (member (JObj fields) "tracking_number") <> None ->
  lookup "gps_tracking" o = None ->
  outcome (getOrderByIdOrTrackingNumber id token) st <> Ok (JObj o).
Proof.
  intros R A B T On P L.
  rewrite (getOrderByIdOrTrackingNumber_run _ _ _ _ _ _ R A B T), On.
  destruct (toString (member (JObj fields) "tracking_number"));
    [|now elim P].
  intro E. injection E as E.
  pose proof (lookup_setField_same "gps_tracking"
                (gpsTracking (JObj fields)) o) as S.
  rewrite E, L in S. discriminate S.
Qed.

(** When tracking is on and the tracking number does not convert to a
    string, the line that logs it throws inside the [try], and the lookup
    raises its fixed message although the order was found. *)
Lemma getOrderByIdOrTrackingNumber_unprintable (id : string)
      (token : option string) (st : ClientState) (response : Response)
      (fields o : JSObject) :
  Rejects GET ("/ecommerce/orders/" ++ id) ->
  Answers GET ("/ecommerce/orders/tracking/" ++ id) response ->
  visibleBody response = JObj fields ->
  transformCellerHutOrder (JObj fields) = Ok o ->
  truthy (member (JObj fields) "tracking_enabled")
  && truthy (member (JObj fields) "tookan_job_id") = true ->
  toString (member (JObj fields) "tracking_number") = None ->
  outcome (getOrderByIdOrTrackingNumber id token) st
  = Throw (new_Error ("Order with ID/tracking " ++ dquote ++ id ++ dquote
                      ++ " not found")).
Proof.
  intros R A B T On P.
  now rewrite (getOrderByIdOrTrackingNumber_run _ _ _ _ _ _ R A B T), On, P.
Qed.

(** C10, amended.  When [processPayment] returns, its one request was
    answered, and the [success] flag of the returned object is truthy: it
    is the boolean [true] when the [success] of the visible body is falsy
    or missing, and otherwise it is that [success] value itself. *)
Theorem processPayment_success_flag (orderId : JSNumber)
        (paymentData result : JSValue) (st : ClientState) :
  outcome (processPayment orderId paymentData) st = Ok result ->
  exists req response,
    requests (processPayment orderId paymentData) st = [req]
    /\ upstream req = Resolved response
    /\ truthy (member result "success") = true
    /\ (truthy (member (visibleBody response) "success") = false ->
        member result "success" = JBool true)
    /\ (truthy (member (visibleBody response) "success") = true ->
        member result "success"
        = member (visibleBody response) "success").
Proof.
  unfold processPayment, visibleBody. async.
  set (req := requestFulfilled (authToken st) _).
  destruct (upstream req) as [response|error] eqn:U; [|discriminate].
  unfold getProp.
  destruct (nullish (resp_data (responseFulfilled response)));
    [discriminate|].
  simpl. intro E. injection E as <-.
  exists req, response.
  split; [apply skipn_length_app|]. split; [exact U|].
  cbn [member lookup String.eqb Ascii.eqb Bool.eqb].
  unfold js_or.
  destruct (truthy (member (resp_data (responseFulfilled response))
                           "success")) eqn:F.
  - split; [exact F|]. split; [discriminate|reflexivity].
  - split; [reflexivity|]. split; [reflexivity|discriminate].
Qed.

Ltac fail_requests F :=
  repeat match goal with
    | |- context [upstream (requestFulfilled ?t ?c)] =>
        let e := fresh "error" in
        let E := fresh "E" in
        destruct (F (req_method c) (req_url c)
                    ltac:(simpl; auto) (requestFulfilled t c)
                    (proj1 (requestFulfilled_keeps t c))
                    (proj1 (proj2 (requestFulfilled_keeps t c))))
          as [e E];
        rewrite E; clear E
    | |- context [transformOrderForCellerHut ?d] =>
        destruct (transformOrderForCellerHut d)
    | |- context [listParams ?k ?i ?o] => destruct (listParams k i o)
    | |- context [getProp ?v ?k] => destruct (getProp v k)
    end.

Lemma upstream_fails_raise (call : Call) (msg : string) (st : ClientState) :
  UpstreamFails call ->
  failureMessage call = Some msg ->
  outcome (invoke call) st = Throw (new_Error msg).
Proof.
  destruct call; simpl; intros F E; try discriminate E; injection E as <-.
  - unfold create. async. fail_requests F; reflexivity.
  - unfold getOrders. async. fail_requests F; reflexivity.
  - unfold getOrderByIdOrTrackingNumber. async.
    fail_requests F. simpl. fail_requests F. reflexivity.
  - unfold update. async. fail_requests F; reflexivity.
  - unfold cancel. async. fail_requests F; reflexivity.
  - unfold getOrderStatus. async. fail_requests F; reflexivity.
  - unfold updateOrderStatus. async. fail_requests F; reflexivity.
  - unfold updatePaymentStatus. async. fail_requests F; reflexivity.
  - unfold getOrdersByCustomer. async. fail_requests F; reflexivity.
  - unfold getOrdersByShop. async. fail_requests F; reflexivity.
  - unfold processPayment. async. fail_requests F; reflexivity.
  - unfold getOrderInvoice. async. fail_requests F; reflexivity.
  - unfold getOrderTracking. async. fail_requests F; reflexivity.
  - unfold verifyCheckout. async. fail_requests F; reflexivity.
  - unfold getCheckoutSession. async. fail_requests F; reflexivity.
  - unfold verifyPaymentForOrder. async. fail_requests F; reflexivity.
Qed.

Lemma forwardUpstreamMessage_raises (withResponse withoutResponse : string)
      (error : JSError) (st : ClientState) :
  exists raised,
    forwardUpstreamMessage withResponse withoutResponse error st
    = (st, Throw raised).
Proof.
  unfold forwardUpstreamMessage.
  destruct (err_response error) as [response|]; async.
  - destruct (getProp (resp_data response) "message") as [message|];
      [destruct (ToString (js_or message (JStr withResponse)))|];
      eexists; reflexivity.
  - eexists; reflexivity.
Qed.

Lemma getOrderAnalytics_rejected (shopId : JSValue) (st : ClientState) :
  Rejects GET "/orders/analytics" ->
  outcome (getOrderAnalytics shopId) st = Ok zeroAnalytics.
Proof.
  intro R. unfold getOrderAnalytics, outcome, try_catch, bind.
  destruct (get_rejected _ (JObj (setIf (truthy shopId) "shop_id" shopId []))
                         [] st R) as [error ->].
  reflexivity.
Qed.

(** C5.  When the GET to [/orders/analytics] fails, [getOrderAnalytics]
    returns the analytics object with every count and amount zero and does
    not raise; and it is the only method whose failure path returns: when
    the upstream fails a call, the call returns a value if and only if it
    is a call of [getOrderAnalytics]. *)
Theorem getOrderAnalytics_sole_silent_failure :
  (forall shopId st,
      Rejects GET "/orders/analytics" ->
      outcome (getOrderAnalytics shopId) st
      = Ok (JObj [("total_orders", num 0); ("total_revenue", num 0);
                  ("pending_orders", num 0); ("completed_orders", num 0);
                  ("cancelled_orders", num 0);
                  ("average_order_value", num 0)]))
  /\ (forall call st,
         UpstreamFails call ->
         (exists value, outcome (invoke call) st = Ok value)
         <-> (exists shopId, call = CallGetOrderAnalytics shopId)).
Proof.
  split.
  - intros shopId st R. now apply getOrderAnalytics_rejected.
  - intros call st F. split.
    + intros [value V].
      destruct (failureMessage call) as [msg|] eqn:M.
      * rewrite (upstream_fails_raise _ _ st F M) in V. discriminate V.
      * destruct call; try discriminate M.
        -- now eexists.
        -- exfalso. revert V. simpl. unfold validateCheckoutForPayment.
           async. fail_requests F.
           match goal with
           | |- context [forwardUpstreamMessage ?a ?b ?e ?s] =>
               destruct (forwardUpstreamMessage_raises a b e s) as [r ->]
           end.
           discriminate.
        -- exfalso. revert V. simpl. unfold initiatePaymentFirst.
           async. fail_requests F.
           match goal with
           | |- context [forwardUpstreamMessage ?a ?b ?e ?s] =>
               destruct (forwardUpstreamMessage_raises a b e s) as [r ->]
           end.
           discriminate.
    + intros [shopId E]. subst call. exists zeroAnalytics. simpl.
      apply getOrderAnalytics_rejected. apply F. simpl. auto.
Qed.

Lemma post_fails_with (url : string) (data : JSValue)
      (headers : list (string * string)) (st : ClientState)
      (error : JSError) :
  FailsWith POST url error ->
  post url data headers st
  = (mkClientState (authToken st)
       (sent st ++ [requestFulfilled (authToken st)
                      (mkRequest POST url data JUndefined
                                 (mergeHeaders headers))]),
     Throw (responseRejected error)).
Proof.
  intro F. unfold post. apply request_rejected.
  apply F; apply requestFulfilled_keeps.
Qed.

(** An error that passes the adapter as it is: its body is an object that
    is no error envelope and its code is neither of the two the adapter
    replaces. *)
Lemma responseRejected_passes (error : JSError) (response : Response)
      (fields : JSObject) :
  err_response error = Some response ->
  resp_data response = JObj fields ->
  lookup "status" fields <> Some (JStr "error") ->
  err_code error <> Some "ECONNABORTED" ->
  err_code error <> Some "ERR_NETWORK" ->
  responseRejected error = error.
Proof.
  intros R B S C1 C2. rewrite responseRejected_plain.
  - unfold networkError. destruct (err_code error) as [c|]; [|reflexivity].
    destruct (String.eqb_spec c "ECONNABORTED") as [->|_]; [now elim C1|].
    destruct (String.eqb_spec c "ERR_NETWORK") as [->|_]; [now elim C2|].
    reflexivity.
  - intros (response' & R' & fields' & B' & S').
    rewrite R in R'. injection R' as <-. rewrite B in B'.
    injection B' as <-. contradiction.
Qed.

Lemma forwardUpstreamMessage_forwards (withResponse withoutResponse : string)
      (error : JSError) (response : Response) (fields : JSObject)
      (M : string) (st : ClientState) :
  err_response error = Some response ->
  resp_data response = JObj fields ->
  lookup "message" fields = Some (JStr M) -> M <> "" ->
  forwardUpstreamMessage withResponse withoutResponse error st
  = (st, Throw (new_Error M)).
Proof.
  intros R B L NE. unfold forwardUpstreamMessage. rewrite R, B. async.
  cbn [getProp nullish]. rewrite (member_lookup _ _ _ L).
  unfold js_or. simpl.
  destruct (String.eqb_spec M ""); [contradiction|reflexivity].
Qed.

Ltac split_paths :=
  repeat (cbv beta iota zeta;
          match goal with
          | |- context [match ?x with _ => _ end] =>
              lazymatch x with
              | context [match _ with _ => _ end] => fail
              | _ => destruct x
              end
          end).

Ltac within_endpoints :=
  cbn [fst sent authToken];
  rewrite <- ?app_assoc, ?skipn_length_app, ?skipn_all;
  split; [|simpl; lia];
  repeat (apply Forall_cons;
          [rewrite (proj1 (requestFulfilled_keeps _ _)),
                   (proj1 (proj2 (requestFulfilled_keeps _ _)));
           simpl; auto|]);
  apply Forall_nil.

(** X4.  Each method sends its requests to its own endpoints only, and at
    most as many requests as it has endpoints: one, or two for the lookup
    by id or tracking number. *)
Lemma invoke_requests_within_endpoints (call : Call) (st : ClientState) :
  Forall (fun req => In (req_method req, req_url req) (endpoints call))
         (requests (invoke call) st)
  /\ (List.length (requests (invoke call) st)
      <= List.length (endpoints call))%nat.
Proof.
  destruct call; simpl;
    unfold create, getOrders, getOrderByIdOrTrackingNumber, update, cancel,
           getOrderStatus, updateOrderStatus, updatePaymentStatus,
           getOrdersByCustomer, getOrdersByShop, processPayment,
           getOrderInvoice, getOrderTracking, verifyCheckout,
           getOrderAnalytics, validateCheckoutForPayment,
           initiatePaymentFirst, getCheckoutSession, verifyPaymentForOrder,
           forwardUpstreamMessage;
    async; split_paths; within_endpoints.
Qed.

(** A failure with an error envelope reaches the two payment-first methods
    as the adapter's own error, which has no [response]: they raise their
    fixed message. *)
Lemma payment_first_envelope_message (error : JSError) :
  CarriesErrorEnvelope error ->
  (FailsWith POST "/ecommerce/checkout/validate" error ->
   forall checkoutData token st,
     outcome (validateCheckoutForPayment checkoutData token) st
     = Throw (new_Error "Failed to validate checkout for payment"))
  /\ (FailsWith POST "/ecommerce/payments/initiate-payment-first" error ->
      forall paymentData token st,
        outcome (initiatePaymentFirst paymentData token) st
        = Throw (new_Error "Failed to initiate payment")).
Proof.
  intros (response & R & fields & B & S).
  assert (P : err_response (responseRejected error) = None).
  { rewrite (responseRejected_envelope _ _ _ R B S). unfold ToString.
    now destruct (toString _). }
  split; intros F payload token st.
  - unfold validateCheckoutForPayment, outcome, try_catch, bind.
    rewrite (post_fails_with _ _ _ _ _ F).
    unfold forwardUpstreamMessage. now rewrite P.
  - unfold initiatePaymentFirst, outcome, try_catch, bind.
    rewrite (post_fails_with _ _ _ _ _ F).
    unfold forwardUpstreamMessage. now rewrite P.
Qed.

(** C2, amended.  When the upstream fails a call of a method other than
    [validateCheckoutForPayment], [initiatePaymentFirst] and
    [getOrderAnalytics], the call raises [new Error] of a message fixed by
    the method and its arguments, with no status code, field errors or
    response on it; a call of [getOrderAnalytics] then returns.  The two
    payment-first methods raise the message of the upstream body when the
    failure reaches them with its response: the body is an object that is
    no error envelope, the code is neither the timeout nor the network
    code, and the body's [message] is a non-empty string. *)
Theorem facade_failure_messages :
  (forall call msg st,
      UpstreamFails call ->
      failureMessage call = Some msg ->
      outcome (invoke call) st = Throw (new_Error msg)
      /\ err_statusCode (new_Error msg) = None
      /\ err_errors (new_Error msg) = None
      /\ err_response (new_Error msg) = None)
  /\ (forall shopId st,
         UpstreamFails (CallGetOrderAnalytics shopId) ->
         exists value,
           outcome (invoke (CallGetOrderAnalytics shopId)) st = Ok value)
  /\ (forall error response fields M,
         err_response error = Some response ->
         resp_data response = JObj fields ->
         lookup "status" fields <> Some (JStr "error") ->
         err_code error <> Some "ECONNABORTED" ->
         err_code error <> Some "ERR_NETWORK" ->
         lookup "message" fields = Some (JStr M) -> M <> "" ->
         (FailsWith POST "/ecommerce/checkout/validate" error ->
          forall checkoutData token st,
            outcome (validateCheckoutForPayment checkoutData token) st
            = Throw (new_Error M))
         /\ (FailsWith POST "/ecommerce/payments/initiate-payment-first"
                       error ->
             forall paymentData token st,
               outcome (initiatePaymentFirst paymentData token) st
               = Throw (new_Error M))).
Proof.
  split; [|split].
  - intros call msg st F E. repeat split.
    now apply upstream_fails_raise.
  - intros shopId st F. exists zeroAnalytics. simpl.
    apply getOrderAnalytics_rejected. apply F. simpl. auto.
  - intros error response fields M R B S C1 C2 L NE.
    pose proof (responseRejected_passes _ _ _ R B S C1 C2) as P.
    split; intros F payload token st.
    + unfold validateCheckoutForPayment, outcome, try_catch, bind.
      rewrite (post_fails_with _ _ _ _ _ F), P.
      now rewrite (forwardUpstreamMessage_forwards _ _ _ _ _ _ _ R B L NE).
    + unfold initiatePaymentFirst, outcome, try_catch, bind.
      rewrite (post_fails_with _ _ _ _ _ F), P.
      now rewrite (forwardUpstreamMessage_forwards _ _ _ _ _ _ _ R B L NE).
Qed.

End Facade.

(* ================================================================== *)
(** * Worked cases *)
(* ================================================================== *)

Section Cases.

Import Samples.
#[local] Existing Instance sampleTransformer.
#[local] Existing Instance sampleEntity.
#[local] Existing Instance sampleRuntime.


Lemma responseFulfilled_unwraps_once_witness :
  SuccessEnvelope (envelope (JObj [("id", num 1)])) (JObj [("id", num 1)])
  /\ responseFulfilled (mkResponse 200 (envelope (JObj [("id", num 1)])))
     = mkResponse 200 (JObj [("id", num 1)])
  /\ responseFulfilled (mkResponse 200 (JArr [num 1]))
     = mkResponse 200 (JArr [num 1]).
Proof.
  assert (E : SuccessEnvelope (envelope (JObj [("id", num 1)]))
                              (JObj [("id", num 1)])).
  { eexists. repeat split; try reflexivity. discriminate. }
  split; [exact E|]. split.
  - exact (proj1 (responseFulfilled_unwraps_once
                    (mkResponse 200 (envelope (JObj [("id", num 1)]))))
                 _ E).
  - apply (proj1 (proj2 (responseFulfilled_unwraps_once
                           (mkResponse 200 (JArr [num 1]))))).
    intros D (fields & B & _). discriminate B.
Defined.

Lemma error_envelope_rejection_witness :
  exists rejected,
    outcome (request (net := failing
                               (badResponse 422
                                  (errorEnvelope (JStr "Email is taken"))))
                     anyRequest) idle
    = Throw rejected
    /\ err_statusCode rejected = Some 422%Z
    /\ err_message rejected = "Email is taken".
Proof.
  refine (proj1 (error_envelope_rejection
                   (net := failing (badResponse 422
                                      (errorEnvelope
                                         (JStr "Email is taken"))))
                   anyRequest idle
                   (badResponse 422 (errorEnvelope (JStr "Email is taken")))
                   (mkResponse 422 (errorEnvelope (JStr "Email is taken")))
                   [("status", JStr "error");
                    ("message", JStr "Email is taken");
                    ("errors", JObj [("email", JArr [JStr "taken"])])]
                   eq_refl eq_refl eq_refl eq_refl)
                "Email is taken" eq_refl _).
  discriminate.
Defined.

(** C3, as stated, fails on an empty message: the body
    [{status: "error", message: "", errors: {...}}] under status 422 is
    rejected with the message "An error occurred". *)
Lemma error_envelope_empty_message_counterexample :
  member (errorEnvelope (JStr "")) "message" = JStr ""
  /\ outcome (request (net := failing
                                (badResponse 422 (errorEnvelope (JStr ""))))
                      anyRequest) idle
     = Throw (mkJSError "Error" "An error occurred" (Some 422%Z)
                (Some (JObj [("email", JArr [JStr "taken"])])) None None)
  /\ "An error occurred" <> "".
Proof. split; [reflexivity|]. split; [reflexivity|discriminate]. Qed.

Lemma plain_failure_rejection_witness :
  ~ CarriesErrorEnvelope timeoutError
  /\ outcome (request (net := failing timeoutError) anyRequest) idle
     = Throw (new_Error "Request timeout - Ekasi Cart API not responding").
Proof.
  assert (N : ~ CarriesErrorEnvelope timeoutError).
  { intros (response & R & _). discriminate R. }
  split; [exact N|].
  exact (proj1 (plain_failure_rejection (net := failing timeoutError)
                  anyRequest idle timeoutError eq_refl N) eq_refl).
Defined.

Lemma updateOrderStatus_single_put_witness :
  exists req,
    requests (updateOrderStatus
                (net := answering 200
                          (envelope (JObj [("id", num 42);
                                           ("order_status",
                                            JStr "completed")])))
                (NDec 42) "completed") idle = [req]
    /\ req_method req = PUT
    /\ req_url req = "/orders/42/status"
    /\ req_data req = JObj [("order_status", JStr "completed")]
    /\ outcome (updateOrderStatus
                  (net := answering 200
                            (envelope (JObj [("id", num 42);
                                             ("order_status",
                                              JStr "completed")])))
                  (NDec 42) "completed") idle
       = Ok (JObj [("id", num 42); ("tracking_number", JUndefined);
                   ("order_status", JStr "completed");
                   ("total", JUndefined)]).
Proof.
  destruct (updateOrderStatus_single_put
              (net := answering 200
                        (envelope (JObj [("id", num 42);
                                         ("order_status",
                                          JStr "completed")])))
              (NDec 42) "completed" idle)
    as (req & S & Km & _ & _ & Run & At42).
  destruct (At42 eq_refl eq_refl) as [Ku Kd].
  exists req.
  split; [exact S|]. split; [exact Km|]. split; [exact Ku|].
  split; [exact Kd|].
  apply (Run (mkResponse 200
                (envelope (JObj [("id", num 42);
                                 ("order_status", JStr "completed")]))));
    reflexivity.
Defined.

Lemma create_attaches_payment_witness :
  exists order,
    outcome (create
               (net := answering 200
                         (JObj [("order", JObj [("id", num 1);
                                                ("grand_total", num 250)]);
                                ("payment",
                                 JObj [("url", JStr "https://pay")])]))
               (JObj [("items", JArr [])]) None) idle
    = Ok order
    /\ member (member order "payment") "url" = JStr "https://pay".
Proof.
  refine (proj2 (proj2 (proj2
            (create_attaches_payment
               (net := answering 200
                         (JObj [("order", JObj [("id", num 1);
                                                ("grand_total", num 250)]);
                                ("payment",
                                 JObj [("url", JStr "https://pay")])]))
               (JObj [("items", JArr [])]) (JObj [("items", JArr [])])
               None idle
               (mkResponse 200
                  (JObj [("order", JObj [("id", num 1);
                                         ("grand_total", num 250)]);
                         ("payment", JObj [("url", JStr "https://pay")])]))
               _ eq_refl _ eq_refl)))
            [("grand_total", num 250)] _ eq_refl eq_refl).
  intros req _ _. reflexivity.
Defined.



Lemma getOrderByIdOrTrackingNumber_fallback_witness :
  outcome (getOrderByIdOrTrackingNumber
             (net := servingOnly "/ecommerce/orders/tracking/T123"
                                 (envelope trackedOrder))
             "T123" None) idle
  = Ok (JObj [("id", num 7); ("tracking_number", JStr "T123");
              ("order_status", JStr "processing"); ("total", JUndefined);
              ("gps_tracking",
               JObj [("trackingEnabled", JBool true);
                     ("trackingUrl", JStr "https://track/991");
                     ("deliveryService", JStr "tookan");
                     ("orderId", num 7);
                     ("orderNumber", JStr "T123");
                     ("orderStatus", JStr "processing")])]).
Proof.
  refine (proj2 (getOrderByIdOrTrackingNumber_fallback
                   (net := servingOnly "/ecommerce/orders/tracking/T123"
                                       (envelope trackedOrder))
                   "T123" None idle
                   (mkResponse 200 (envelope trackedOrder))
                   _ _ _ _ eq_refl eq_refl) eq_refl _).
  - intros req _ U. eexists. simpl. rewrite U. reflexivity.
  - intros req _ U. simpl. rewrite U. reflexivity.
  - discriminate.
Defined.

(** C4, as stated, fails on an order with tracking on: the by-id GET
    fails, the tracking GET answers the order [trackedOrder], and the
    result is not the transformed order but the transformed order with
    [gps_tracking] added. *)
Lemma getOrderByIdOrTrackingNumber_counterexample :
  transformCellerHutOrder trackedOrder
  = Ok [("id", num 7); ("tracking_number", JStr "T123");
        ("order_status", JStr "processing"); ("total", JUndefined)]
  /\ outcome (getOrderByIdOrTrackingNumber
                (net := servingOnly "/ecommerce/orders/tracking/T123"
                                    trackedOrder)
                "T123" None) idle
     <> Ok (JObj [("id", num 7); ("tracking_number", JStr "T123");
                  ("order_status", JStr "processing");
                  ("total", JUndefined)])
  /\ outcome (getOrderByIdOrTrackingNumber
                (net := servingOnly "/ecommerce/orders/tracking/T123"
                                    trackedOrder)
                "T123" None) idle
     = Ok (JObj [("id", num 7); ("tracking_number", JStr "T123");
                 ("order_status", JStr "processing"); ("total", JUndefined);
                 ("gps_tracking",
                  JObj [("trackingEnabled", JBool true);
                        ("trackingUrl", JStr "https://track/991");
                        ("deliveryService", JStr "tookan");
                        ("orderId", num 7);
                        ("orderNumber", JStr "T123");
                        ("orderStatus", JStr "processing")])]).
Proof.
  split; [reflexivity|]. split; [|reflexivity].
  vm_compute. intro E. discriminate E.
Qed.

Lemma processPayment_success_flag_witness :
  exists req response,
    requests (processPayment
                (net := answering 200
                          (JObj [("success", JBool false);
                                 ("transaction_id", JStr "tx-1")]))
                (NDec 7) (JObj [("method", JStr "card")])) idle = [req]
    /\ upstream (Network := answering 200
                              (JObj [("success", JBool false);
                                     ("transaction_id", JStr "tx-1")]))
                req
       = Resolved response
    /\ member (JObj [("success", JBool true);
                     ("payment_intent", JUndefined);
                     ("transaction_id", JStr "tx-1");
                     ("message", JStr "Payment processed successfully")])
              "success"
       = JBool true.
Proof.
  destruct (processPayment_success_flag
              (net := answering 200
                        (JObj [("success", JBool false);
                               ("transaction_id", JStr "tx-1")]))
              (NDec 7) (JObj [("method", JStr "card")])
              (JObj [("success", JBool true);
                     ("payment_intent", JUndefined);
                     ("transaction_id", JStr "tx-1");
                     ("message", JStr "Payment processed successfully")])
              idle eq_refl)
    as (req & response & S & U & _ & F & _).
  exists req, response. split; [exact S|]. split; [exact U|].
  apply F. simpl in U. injection U as <-. reflexivity.
Defined.

(** C10, as stated, fails on a truthy [success] that is not a boolean:
    for the body [{success: 1}] the returned flag is the number 1. *)
Lemma processPayment_counterexample :
  outcome (processPayment
             (net := answering 200 (JObj [("success", num 1)]))
             (NDec 7) (JObj [("method", JStr "card")])) idle
  = Ok (JObj [("success", num 1); ("payment_intent", JUndefined);
              ("transaction_id", JUndefined);
              ("message", JStr "Payment processed successfully")])
  /\ num 1 <> JBool true.
Proof. split; [reflexivity|discriminate]. Qed.

Lemma getOrderAnalytics_sole_silent_failure_witness :
  outcome (getOrderAnalytics (net := failing timeoutError) (num 3)) idle
  = Ok (JObj [("total_orders", num 0); ("total_revenue", num 0);
              ("pending_orders", num 0); ("completed_orders", num 0);
              ("cancelled_orders", num 0); ("average_order_value", num 0)])
  /\ ~ (exists value,
           outcome (invoke (net := failing timeoutError)
                           (CallCancel (NDec 3))) idle
           = Ok value).
Proof.
  split.
  - apply (proj1 (getOrderAnalytics_sole_silent_failure
                    (net := failing timeoutError))).
    intros req _ _. eexists. reflexivity.
  - intro V.
    apply (proj2 (getOrderAnalytics_sole_silent_failure
                    (net := failing timeoutError))) in V.
    + destruct V as [shopId V]. discriminate V.
    + intros method url _ req _ _. eexists. reflexivity.
Defined.

Lemma facade_failure_messages_witness :
  outcome (invoke (net := failing timeoutError) (CallCancel (NDec 3))) idle
  = Throw (new_Error "Failed to cancel order 3 in Ekasi Cart API")
  /\ outcome (validateCheckoutForPayment
                (net := failing
                          (badResponse 400
                             (JObj [("message", JStr "Cart is empty")])))
                (JObj [("items", JArr [])]) None) idle
     = Throw (new_Error "Cart is empty").
Proof.
  split.
  - apply (proj1 (facade_failure_messages (net := failing timeoutError))).
    + intros method url _ req _ _. eexists. reflexivity.
    + reflexivity.
  - refine (proj1 (proj2 (proj2 (facade_failure_messages
                            (net := failing
                                      (badResponse 400
                                         (JObj [("message",
                                                 JStr "Cart is empty")])))))
                     (badResponse 400
                        (JObj [("message", JStr "Cart is empty")]))
                     (mkResponse 400
                        (JObj [("message", JStr "Cart is empty")]))
                     [("message", JStr "Cart is empty")] "Cart is empty"
                     eq_refl eq_refl _ _ _ eq_refl _) _ _ _ _);
      try discriminate.
    intros req _ _. reflexivity.
Defined.

(** C2, as stated, fails twice.  [getOrderAnalytics] is a method other than
    the two payment-first ones, and when its request fails it returns
    instead of raising.  And when the upstream answers
    [validateCheckoutForPayment] with the error envelope
    [{status: "error", message: "Cart is empty", ...}], the error raised
    carries the fixed message, not the upstream one. *)
Lemma facade_failure_messages_counterexample :
  outcome (getOrderAnalytics (net := failing timeoutError) JUndefined) idle
  = Ok zeroAnalytics
  /\ outcome (validateCheckoutForPayment
                (net := failing
                          (badResponse 422
                             (errorEnvelope (JStr "Cart is empty"))))
                (JObj [("items", JArr [])]) None) idle
     = Throw (new_Error "Failed to validate checkout for payment")
  /\ "Failed to validate checkout for payment" <> "Cart is empty".
Proof. split; [reflexivity|]. split; [reflexivity|discriminate]. Qed.

End Cases.

(* ================================================================== *)
(** * Further properties of the adapter and the service *)
(* ================================================================== *)

(** ** Headers *)

Lemma header_setHeader_same (k v : string) (h : list (string * string)) :
  header k (setHeader k v h) = Some v.
Proof.
  induction h as [|[k' v'] h IH]; simpl.
  - now rewrite String.eqb_refl.
  - destruct (String.eqb_spec k' k) as [->|N]; simpl.
    + now rewrite String.eqb_refl.
    + apply String.eqb_neq in N. now rewrite N.
Qed.

Lemma header_requestFulfilled (token : option string) (config : Request) :
  header "Authorization" (req_headers (requestFulfilled token config))
  = match usable token with
    | Some t => Some ("Bearer " ++ t)
    | None => header "Authorization" (req_headers config)
    end.
Proof.
  unfold requestFulfilled, usable. destruct token as [t|]; [|reflexivity].
  destruct (t =? ""); simpl; [reflexivity|].
  apply header_setHeader_same.
Qed.

Lemma header_authHeaders (token : option string) :
  header "Authorization" (mergeHeaders (authHeaders token))
  = match usable token with
    | Some t => Some ("Bearer " ++ t)
    | None => None
    end.
Proof.
  unfold authHeaders, usable. destruct token as [t|]; [|reflexivity].
  destruct (t =? ""); reflexivity.
Qed.

Lemma sent_authorization_header (token callerToken : option string)
      (config : Request) :
  header "Authorization" (req_headers config)
  = match usable callerToken with
    | Some t => Some ("Bearer " ++ t)
    | None => None
    end ->
  header "Authorization" (req_headers (requestFulfilled token config))
  = authorization token callerToken.
Proof.
  intro E. rewrite header_requestFulfilled, E. reflexivity.
Qed.

Ltac unfold_methods :=
  unfold create, getOrders, getOrderByIdOrTrackingNumber, update, cancel,
         getOrderStatus, updateOrderStatus, updatePaymentStatus,
         getOrdersByCustomer, getOrdersByShop, processPayment,
         getOrderInvoice, getOrderTracking, verifyCheckout,
         getOrderAnalytics, validateCheckoutForPayment,
         initiatePaymentFirst, getCheckoutSession, verifyPaymentForOrder,
         forwardUpstreamMessage.

Ltac each_path :=
  repeat (cbv beta iota zeta;
          match goal with
          | |- context [match ?x with _ => _ end] =>
              lazymatch x with
              | context [match _ with _ => _ end] => fail
              | _ => destruct x
              end
          end).

Ltac log_shape :=
  cbn [fst snd sent authToken];
  rewrite <- ?app_assoc, ?skipn_length_app, ?skipn_all, ?app_nil_r.

Section Coverage.
Context {net : Network} {transformer : DataTransformer}
        {entity : OrderEntity} {runtime : Runtime}.

Lemma invoke_authorization (call : Call) (st : ClientState) :
  Forall (fun req =>
            header "Authorization" (req_headers req)
            = authorization (authToken st) (callToken call))
         (requests (invoke call) st).
Proof.
  destruct call; cbn [invoke callToken]; unfold_methods; async;
    each_path; log_shape;
    repeat (apply Forall_cons;
            [apply sent_authorization_header;
             first [apply header_authHeaders | reflexivity]|]);
    apply Forall_nil.
Qed.

(** X1.  Whatever method is called, every request it sends carries the
    [Authorization] header decided by two tokens: [Bearer] of the module's
    token when that is set and not empty, over any token the call passes;
    else [Bearer] of the call's own token when it passes a non-empty one;
    else no such header.  The methods that take no token ([update],
    [cancel], the status and payment methods, the listings by customer and
    shop, [getOrderAnalytics]) are authorised by the module's token
    only. *)
Theorem requests_authorization (call : Call) (st : ClientState) :
  Forall (fun req =>
            header "Authorization" (req_headers req)
            = authorization (authToken st) (callToken call))
         (requests (invoke call) st).
Proof. apply invoke_authorization. Qed.

(** X2.  [setAuthToken] sends nothing and is read back by [getAuthToken];
    the requests of any call made after it carry the header decided by the
    token just set, whatever token was there before. *)
Theorem setAuthToken_then_call (token : option string) (call : Call)
        (st : ClientState) :
  let st' := fst (setAuthToken token st) in
  requests (setAuthToken token) st = []
  /\ outcome getAuthToken st' = Ok token
  /\ Forall (fun req =>
               header "Authorization" (req_headers req)
               = authorization token (callToken call))
            (requests (invoke call) st').
Proof.
  split; [|split].
  - unfold requests, setAuthToken. simpl. apply skipn_all.
  - reflexivity.
  - apply (invoke_authorization call (fst (setAuthToken token st))).
Qed.

(** X3.  No method of the service touches the module's token, and the
    request log only grows: after a call it is the log before followed by
    the requests of the call. *)
Theorem invoke_keeps_token_and_log (call : Call) (st : ClientState) :
  authToken (fst (invoke call st)) = authToken st
  /\ sent (fst (invoke call st))
     = (sent st ++ requests (invoke call) st)%list.
Proof.
  destruct call; cbn [invoke]; unfold_methods; async;
    each_path; log_shape; split; reflexivity.
Qed.

(** X14.  A method with a fixed failure message raises nothing else:
    whatever the upstream answers and whatever the transformers throw, a
    call either returns or raises [new Error] of that message, with no
    status code, field errors, code or response on it. *)
Theorem invoke_raises_fixed_message_only (call : Call) (msg : string)
        (st : ClientState) (raised : JSError) :
  failureMessage call = Some msg ->
  outcome (invoke call) st = Throw raised ->
  raised = new_Error msg.
Proof.
  destruct call; cbn [invoke failureMessage]; intro E;
    try discriminate E; injection E as <-;
    unfold_methods; async; each_path; cbn [snd];
    intro T; try discriminate T; injection T as <-; reflexivity.
Qed.

End Coverage.

Section HealthProbe.
Context {net : Network} {env : Environment}.

(** X13.  [checkCellerHutHealth] never raises.  It sends one GET to
    [/health] under the configured base address (the default one when the
    variable is unset or empty), without any header of this module, so
    without the module's token even when one is set, and leaves the token
    alone.  It answers [true] exactly when the probe is answered with
    status 200: another 2xx status or any failure gives [false]. *)
Theorem checkCellerHutHealth_probe (st : ClientState) :
  let probe :=
    mkRequest GET (CELLER_HUT_API_URL ++ "/health") JUndefined JUndefined
              [] in
  requests checkCellerHutHealth st = [probe]
  /\ authToken (fst (checkCellerHutHealth st)) = authToken st
  /\ (env_CELLER_HUT_API_URL = None \/ env_CELLER_HUT_API_URL = Some "" ->
      req_url probe = "https://api.ekasicart.com/health")
  /\ exists healthy,
       outcome checkCellerHutHealth st = Ok healthy
       /\ (healthy = true <->
           exists response,
             upstream probe = Resolved response
             /\ resp_status response = 200%Z).
Proof.
  intro probe. unfold checkCellerHutHealth, axios_get. async. fold probe.
  destruct (upstream probe) as [response|error] eqn:U; log_shape.
  - split; [reflexivity|]. split; [reflexivity|]. split.
    + subst probe. unfold CELLER_HUT_API_URL.
      intros [-> | ->]; reflexivity.
    + eexists. split; [reflexivity|]. split.
      * intro E. exists response. split; [reflexivity|].
        now apply Z.eqb_eq.
      * intros (response' & R & S). injection R as <-.
        now apply Z.eqb_eq.
  - split; [reflexivity|]. split; [reflexivity|]. split.
    + subst probe. unfold CELLER_HUT_API_URL.
      intros [-> | ->]; reflexivity.
    + exists false. split; [reflexivity|]. split; [discriminate|].
      intros (response' & R & _). discriminate R.
Qed.

End HealthProbe.

Section Reads.
Context {net : Network} {transformer : DataTransformer}
        {entity : OrderEntity} {runtime : Runtime}.

(** X5.  The lookup by id or tracking number tries the id first.  When
    the GET by id is answered with an object on which the transformer
    returns, that is the only request (the tracking path is not
    contacted).  The result is then the transformed body as it is when the
    body's [tracking_enabled] or [tookan_job_id] is falsy; when both are
    truthy it is the transformed body with [gps_tracking] added if the
    body's [tracking_number] converts to a string, and the fixed
    not-found error if it does not (the line that logs it throws inside
    the [try]).  When the GET by id fails, exactly two requests are sent,
    the one by id and then the one by tracking number, whatever the second
    one gives. *)
Theorem getOrderByIdOrTrackingNumber_id_first (id : string)
        (token : option string) (st : ClientState) :
  (forall response fields o,
      Answers GET ("/ecommerce/orders/" ++ id) response ->
      visibleBody response = JObj fields ->
      transformCellerHutOrder (JObj fields) = Ok o ->
      let tracked :=
        truthy (member (JObj fields) "tracking_enabled")
        && truthy (member (JObj fields) "tookan_job_id") in
      (exists req,
          requests (getOrderByIdOrTrackingNumber id token) st = [req]
          /\ req_method req = GET
          /\ req_url req = "/ecommerce/orders/" ++ id)
      /\ (tracked = false ->
          outcome (getOrderByIdOrTrackingNumber id token) st = Ok (JObj o))
      /\ (tracked = true ->
          toString (member (JObj fields) "tracking_number") <> None ->
          outcome (getOrderByIdOrTrackingNumber id token) st
          = Ok (JObj
                  (setField "gps_tracking"
                     (JObj [("trackingEnabled",
                             member (JObj fields) "tracking_enabled");
                            ("trackingUrl",
                             member (JObj fields) "tracking_url");
                            ("deliveryService",
                             member (JObj fields) "delivery_service");
                            ("orderId", member (JObj fields) "id");
                            ("orderNumber",
                             member (JObj fields) "tracking_number");
                            ("orderStatus",
                             member (JObj fields) "order_status")])
                     o)))
      /\ (tracked = true ->
          toString (member (JObj fields) "tracking_number") = None ->
          outcome (getOrderByIdOrTrackingNumber id token) st
          = Throw (new_Error ("Order with ID/tracking " ++ dquote ++ id
                              ++ dquote ++ " not found"))))
  /\ (Rejects GET ("/ecommerce/orders/" ++ id) ->
      exists first second,
        requests (getOrderByIdOrTrackingNumber id token) st
        = [first; second]
        /\ req_method first = GET
        /\ req_url first = "/ecommerce/orders/" ++ id
        /\ req_method second = GET
        /\ req_url second = "/ecommerce/orders/tracking/" ++ id).
Proof.
  split.
  - intros response fields o A B T tracked.
    unfold getOrderByIdOrTrackingNumber, outcome, requests, try_catch, bind,
      lift, ret, throw.
    rewrite (get_answered _ _ _ _ _ A). unfold visibleBody in B.
    rewrite B, T. cbn [getProp nullish]. rewrite truthy_js_and.
    fold tracked. unfold ToString.
    destruct tracked;
      [destruct (toString (member (JObj fields) "tracking_number")) eqn:P|];
      log_shape;
      (split;
       [eexists; split; [reflexivity|]; split; apply requestFulfilled_keeps
       |]);
      (split; [first [reflexivity | discriminate]|]);
      (split; [first [reflexivity | discriminate | intros _ N; now elim N]
              |]);
      first [reflexivity | discriminate].
  - intro R.
    unfold getOrderByIdOrTrackingNumber, requests, try_catch, bind, lift,
      ret.
    destruct (get_rejected _ JUndefined (authHeaders token) st R)
      as [error ->].
    async. each_path; log_shape;
      (eexists; eexists; split; [reflexivity|];
       repeat split; apply requestFulfilled_keeps).
Qed.

(** X6.  When the GET to [/orders/{id}/status] is answered,
    [getOrderStatus] raises its fixed message on a [null] or [undefined]
    body; on any other body it returns [id] and [updated_at] as the body
    has them, and [order_status] and [payment_status] as the body has them
    when truthy, else the [PENDING] member of the respective enum. *)
Theorem getOrderStatus_defaults (id : JSNumber) (st : ClientState)
        (response : Response) :
  Answers GET ("/orders/" ++ num_to_string id ++ "/status") response ->
  let body := visibleBody response in
  (nullish body = true ->
   outcome (getOrderStatus id) st
   = Throw (new_Error ("Failed to get status for order "
                       ++ num_to_string id)))
  /\ (nullish body = false ->
      exists result,
        outcome (getOrderStatus id) st = Ok result
        /\ member result "id" = member body "id"
        /\ member result "updated_at" = member body "updated_at"
        /\ member result "order_status"
           = (if truthy (member body "order_status")
              then member body "order_status"
              else JStr OrderStatusType_PENDING)
        /\ member result "payment_status"
           = (if truthy (member body "payment_status")
              then member body "payment_status"
              else JStr PaymentStatusType_PENDING)).
Proof.
  intros A body. subst body. unfold visibleBody.
  unfold getOrderStatus, outcome, try_catch, bind, lift, ret, throw, getProp.
  rewrite (get_answered _ _ _ _ _ A). split; intros ->.
  - reflexivity.
  - eexists. split; [reflexivity|]. repeat split.
Qed.

(** X7.  [getOrderAnalytics] never raises, whatever the upstream does.  It
    sends one GET to [/orders/analytics] whose [params] hold [shop_id] only
    for a truthy shop id (so not for 0).  When the request fails, or is
    answered with a [null] or [undefined] body, the result is the
    all-zero object; on any other body each of the six figures is the
    body's when truthy and 0 otherwise, so a body without figures gives
    the same object as a failure. *)
Theorem getOrderAnalytics_never_raises (shopId : JSValue)
        (st : ClientState) :
  exists req result,
    requests (getOrderAnalytics shopId) st = [req]
    /\ req_method req = GET
    /\ req_url req = "/orders/analytics"
    /\ req_params req
       = JObj (if truthy shopId then [("shop_id", shopId)] else [])
    /\ outcome (getOrderAnalytics shopId) st = Ok result
    /\ (forall error, upstream req = Rejected error -> result = zeroAnalytics)
    /\ (forall response,
           upstream req = Resolved response ->
           nullish (visibleBody response) = true ->
           result = zeroAnalytics)
    /\ (forall response k,
           upstream req = Resolved response ->
           nullish (visibleBody response) = false ->
           In k ["total_orders"; "total_revenue"; "pending_orders";
                 "completed_orders"; "cancelled_orders";
                 "average_order_value"] ->
           member result k
           = (if truthy (member (visibleBody response) k)
              then member (visibleBody response) k
              else num 0)).
Proof.
  unfold getOrderAnalytics, visibleBody. async.
  set (req := requestFulfilled (authToken st) _).
  exists req.
  destruct (upstream req) as [response|error] eqn:U; unfold getProp.
  - destruct (nullish (resp_data (responseFulfilled response))) eqn:N;
      log_shape; eexists;
      (split; [reflexivity|]); (split; [apply requestFulfilled_keeps|]);
      (split; [apply requestFulfilled_keeps|]);
      (split; [subst req;
               rewrite (proj2 (proj2 (proj2 (requestFulfilled_keeps _ _))));
               unfold setIf; simpl; now destruct (truthy shopId)|]);
      (split; [reflexivity|]).
    + split; [discriminate|]. split; [reflexivity|].
      intros response' k R N'. injection R as <-. congruence.
    + split; [discriminate|]. split.
      * intros response' R N'. injection R as <-. congruence.
      * intros response' k R _ K. injection R as <-.
        unfold js_or. simpl in K.
        repeat (destruct K as [<-|K]; [reflexivity|]). contradiction.
  - log_shape. eexists.
    split; [reflexivity|]. split; [apply requestFulfilled_keeps|].
    split; [apply requestFulfilled_keeps|].
    split; [subst req;
            rewrite (proj2 (proj2 (proj2 (requestFulfilled_keeps _ _))));
            unfold setIf; simpl; now destruct (truthy shopId)|].
    split; [reflexivity|]. split; [reflexivity|].
    split; intros; discriminate.
Qed.

(** X8.  [verifyCheckout] reads its figures one level below the body the
    adapter hands over, from the body's own [data].  When the POST is
    answered and that [data] is missing, [null] or [undefined] (as for an
    upstream answer with a single envelope, which the adapter has already
    unwrapped), it raises its fixed message although the upstream
    succeeded; otherwise each of the six results is the inner value when
    truthy and its default otherwise. *)
Theorem verifyCheckout_reads_inner_data (checkoutData : JSValue)
        (token : option string) (st : ClientState) (response : Response) :
  Answers POST "/ecommerce/orders/verify-checkout" response ->
  let inner := member (visibleBody response) "data" in
  (nullish inner = true ->
   outcome (verifyCheckout checkoutData token) st
   = Throw (new_Error "Failed to verify checkout data"))
  /\ (nullish inner = false ->
      exists result,
        outcome (verifyCheckout checkoutData token) st = Ok result
        /\ forall k d,
            In (k, d) [("unavailable_products", JArr []);
                       ("total_tax", num 0);
                       ("shipping_charge", num 0);
                       ("shipping_zone", JStr "");
                       ("estimated_delivery", JStr "");
                       ("available_coupons", JArr [])] ->
            member result k
            = (if truthy (member inner k) then member inner k else d)).
Proof.
  intros A inner. subst inner. unfold visibleBody.
  unfold verifyCheckout, outcome, try_catch, bind, lift, ret, throw.
  rewrite (post_answered _ _ _ _ _ A). unfold getProp.
  destruct (nullish (resp_data (responseFulfilled response))) eqn:N.
  - split; [reflexivity|].
    destruct (resp_data (responseFulfilled response)); discriminate.
  - cbv beta iota.
    destruct (nullish (member (resp_data (responseFulfilled response))
                              "data")) eqn:N'.
    + split; [reflexivity|discriminate].
    + split; [discriminate|]. intros _. eexists. split; [reflexivity|].
      intros k d K. unfold js_or. simpl in K.
      repeat (destruct K as [K|K]; [injection K as <- <-; reflexivity|]).
      contradiction.
Qed.

(** X9.  When the arguments of a call fail before the request is built,
    the call raises its fixed message and sends nothing: [create] and
    [update] when the draft transformer throws, [verifyPaymentForOrder] on
    a [null] or [undefined] argument, and the listings by customer and by
    shop on [null] options. *)
Theorem failed_arguments_send_nothing (st : ClientState) :
  (forall dto token error,
      transformOrderForCellerHut dto = Throw error ->
      requests (create dto token) st = []
      /\ outcome (create dto token) st
         = Throw (new_Error "Failed to create order in Ekasi Cart API"))
  /\ (forall id dto error,
         transformOrderForCellerHut dto = Throw error ->
         requests (update id dto) st = []
         /\ outcome (update id dto) st
            = Throw (new_Error ("Failed to update order "
                                ++ num_to_string id
                                ++ " in Ekasi Cart API")))
  /\ (forall data token,
         nullish data = true ->
         requests (verifyPaymentForOrder data token) st = []
         /\ outcome (verifyPaymentForOrder data token) st
            = Throw (new_Error "Failed to verify payment for order"))
  /\ (forall customerId,
         requests (getOrdersByCustomer customerId JNull) st = []
         /\ outcome (getOrdersByCustomer customerId JNull) st
            = Throw (new_Error ("Failed to fetch orders for customer "
                                ++ num_to_string customerId)))
  /\ (forall shopId,
         requests (getOrdersByShop shopId JNull) st = []
         /\ outcome (getOrdersByShop shopId JNull) st
            = Throw (new_Error ("Failed to fetch orders for shop "
                                ++ num_to_string shopId))).
Proof.
  split; [|split; [|split; [|split]]].
  - intros dto token error T. unfold create. async. rewrite T.
    log_shape. now split.
  - intros id dto error T. unfold update. async. rewrite T.
    log_shape. now split.
  - intros data token N. unfold verifyPaymentForOrder, getProp. async.
    rewrite N. log_shape. now split.
  - intro customerId. unfold getOrdersByCustomer. async. log_shape.
    now split.
  - intro shopId. unfold getOrdersByShop. async. log_shape. now split.
Qed.





Lemma listParams_object (key : string) (id : JSNumber)
      (options : JSObject) :
  listParams key id (JObj options)
  = Ok (JObj (spread [(key, JNum id);
                      ("page", js_or (member (JObj options) "page") (num 1));
                      ("limit",
                       js_or (member (JObj options) "limit") (num 15))]
                     options)).
Proof. reflexivity. Qed.

Lemma listing_params (key : string) (id : JSNumber) (options : JSObject) :
  key <> "page" -> key <> "limit" ->
  NoDup (map fst options) ->
  exists params,
    listParams key id (JObj options) = Ok (JObj params)
    /\ (forall k v, lookup k options = Some v -> lookup k params = Some v)
    /\ (lookup key options = None -> lookup key params = Some (JNum id))
    /\ (lookup "page" options = None -> lookup "page" params = Some (num 1))
    /\ (lookup "limit" options = None ->
        lookup "limit" params = Some (num 15)).
Proof.
  intros K1 K2 D. eexists. split; [apply listParams_object|].
  split; [|split; [|split]].
  - intros k v L. now apply lookup_spread_present.
  - intro L. rewrite (lookup_spread_absent _ _ _ L). simpl.
    now rewrite String.eqb_refl.
  - intro L. rewrite (lookup_spread_absent _ _ _ L).
    rewrite (member_missing _ _ L). simpl.
    apply String.eqb_neq in K1. now rewrite K1.
  - intro L. rewrite (lookup_spread_absent _ _ _ L).
    rewrite (member_missing _ _ L). simpl.
    apply String.eqb_neq in K1. apply String.eqb_neq in K2.
    now rewrite K2.
Qed.

(** X12.  The listings by customer and by shop send one GET to [/orders]
    whose [params] are the id and the defaults overridden by the options:
    every key of the options object arrives as the caller gave it, also
    [customer_id] (or [shop_id]) itself and also a falsy [page] or
    [limit]; the id argument, page 1 and limit 15 are sent only for the
    keys the options lack.  Without options the params are the id, page 1
    and limit 15. *)
Theorem listing_options_override (id : JSNumber) (st : ClientState) :
  (forall options,
      NoDup (map fst options) ->
      (exists req params,
          requests (getOrdersByCustomer id (JObj options)) st = [req]
          /\ req_method req = GET /\ req_url req = "/orders"
          /\ req_params req = JObj params
          /\ (forall k v,
                 lookup k options = Some v -> lookup k params = Some v)
          /\ (lookup "customer_id" options = None ->
              lookup "customer_id" params = Some (JNum id))
          /\ (lookup "page" options = None ->
              lookup "page" params = Some (num 1))
          /\ (lookup "limit" options = None ->
              lookup "limit" params = Some (num 15)))
      /\ (exists req params,
             requests (getOrdersByShop id (JObj options)) st = [req]
             /\ req_method req = GET /\ req_url req = "/orders"
             /\ req_params req = JObj params
             /\ (forall k v,
                    lookup k options = Some v -> lookup k params = Some v)
             /\ (lookup "shop_id" options = None ->
                 lookup "shop_id" params = Some (JNum id))
             /\ (lookup "page" options = None ->
                 lookup "page" params = Some (num 1))
             /\ (lookup "limit" options = None ->
                 lookup "limit" params = Some (num 15))))
  /\ (exists req,
         requests (getOrdersByCustomer id JUndefined) st = [req]
         /\ req_params req
            = JObj [("customer_id", JNum id); ("page", num 1);
                    ("limit", num 15)])
  /\ (exists req,
         requests (getOrdersByShop id JUndefined) st = [req]
         /\ req_params req
            = JObj [("shop_id", JNum id); ("page", num 1);
                    ("limit", num 15)]).
Proof.
  split; [|split].
  - intros options D. split.
    + destruct (listing_params "customer_id" id options)
        as (params & E & P); [discriminate|discriminate|exact D|].
      exists (requestFulfilled (authToken st)
                (mkRequest GET "/orders" JUndefined (JObj params)
                           (mergeHeaders []))), params.
      split.
      { unfold getOrdersByCustomer. async. rewrite E.
        each_path; log_shape; reflexivity. }
      split; [apply requestFulfilled_keeps|].
      split; [apply requestFulfilled_keeps|].
      split; [apply requestFulfilled_keeps|exact P].
    + destruct (listing_params "shop_id" id options)
        as (params & E & P); [discriminate|discriminate|exact D|].
      exists (requestFulfilled (authToken st)
                (mkRequest GET "/orders" JUndefined (JObj params)
                           (mergeHeaders []))), params.
      split.
      { unfold getOrdersByShop. async. rewrite E.
        each_path; log_shape; reflexivity. }
      split; [apply requestFulfilled_keeps|].
      split; [apply requestFulfilled_keeps|].
      split; [apply requestFulfilled_keeps|exact P].
  - eexists. split.
    + unfold getOrdersByCustomer. async. cbn [listParams getProp nullish].
      each_path; log_shape; reflexivity.
    + now rewrite (proj2 (proj2 (proj2 (requestFulfilled_keeps _ _)))).
  - eexists. split.
    + unfold getOrdersByShop. async. cbn [listParams getProp nullish].
      each_path; log_shape; reflexivity.
    + now rewrite (proj2 (proj2 (proj2 (requestFulfilled_keeps _ _)))).
Qed.

(** The error the adapter rejects with has no [response] whenever the
    failure carried an error envelope, had no response, or had one of the
    two codes the adapter replaces. *)
Lemma responseRejected_no_response (error : JSError) :
  CarriesErrorEnvelope error \/ err_response error = None
  \/ err_code error = Some "ECONNABORTED"
  \/ err_code error = Some "ERR_NETWORK" ->
  err_response (responseRejected error) = None.
Proof.
  intros [(response & R & fields & B & S)|C].
  - rewrite (responseRejected_envelope _ _ _ R B S). unfold ToString.
    now destruct (toString _).
  - unfold responseRejected.
    assert (N : err_response (networkError error) = None).
    { unfold networkError. destruct C as [C|[C|C]].
      - destruct (err_code error) as [c|]; [|exact C].
        destruct (c =? "ECONNABORTED"); [reflexivity|].
        destruct (c =? "ERR_NETWORK"); [reflexivity|exact C].
      - now rewrite C.
      - now rewrite C. }
    destruct (err_response error) as [response|]; [|exact N].
    destruct (truthy (resp_data response)); [|exact N].
    destruct (strict_eq_str (member (resp_data response) "status") "error");
      [|exact N].
    unfold ToString. now destruct (toString _).
Qed.

Lemma responseRejected_kept (error : JSError) :
  ~ CarriesErrorEnvelope error ->
  err_code error <> Some "ECONNABORTED" ->
  err_code error <> Some "ERR_NETWORK" ->
  responseRejected error = error.
Proof.
  intros N C1 C2. rewrite (responseRejected_plain _ N).
  unfold networkError. destruct (err_code error) as [c|]; [|reflexivity].
  destruct (String.eqb_spec c "ECONNABORTED") as [->|_]; [now elim C1|].
  destruct (String.eqb_spec c "ERR_NETWORK") as [->|_]; [now elim C2|].
  reflexivity.
Qed.

(** X15.  The two payment-first methods lose the upstream message whenever
    the failure reaches them without its response: when it carried an
    error envelope (the adapter rebuilds the error without [response]),
    when it had no response at all, and on the timeout and network codes.
    [validateCheckoutForPayment] then raises "Failed to validate checkout
    for payment" and [initiatePaymentFirst] "Failed to initiate
    payment". *)
Theorem payment_first_lost_message (error : JSError) :
  CarriesErrorEnvelope error \/ err_response error = None
  \/ err_code error = Some "ECONNABORTED"
  \/ err_code error = Some "ERR_NETWORK" ->
  (FailsWith POST "/ecommerce/checkout/validate" error ->
   forall checkoutData token st,
     outcome (validateCheckoutForPayment checkoutData token) st
     = Throw (new_Error "Failed to validate checkout for payment"))
  /\ (FailsWith POST "/ecommerce/payments/initiate-payment-first" error ->
      forall paymentData token st,
        outcome (initiatePaymentFirst paymentData token) st
        = Throw (new_Error "Failed to initiate payment")).
Proof.
  intro C. pose proof (responseRejected_no_response _ C) as N.
  split; intros F payload token st.
  - unfold validateCheckoutForPayment, outcome, try_catch, bind.
    rewrite (post_fails_with _ _ _ _ _ F).
    unfold forwardUpstreamMessage. now rewrite N.
  - unfold initiatePaymentFirst, outcome, try_catch, bind.
    rewrite (post_fails_with _ _ _ _ _ F).
    unfold forwardUpstreamMessage. now rewrite N.
Qed.

(** X16.  When a failure reaches the two payment-first methods with its
    response (no error envelope, neither of the two replaced codes): on a
    [null] or [undefined] body the catch block itself throws, so the call
    raises the TypeError of reading [message] and not an error of the
    service; on any other body without a truthy [message] (a non-object
    body included) [validateCheckoutForPayment] raises "Failed to validate
    checkout" and [initiatePaymentFirst] "Failed to initiate payment". *)
Theorem payment_first_kept_response (error : JSError)
        (response : Response) :
  err_response error = Some response ->
  ~ CarriesErrorEnvelope error ->
  err_code error <> Some "ECONNABORTED" ->
  err_code error <> Some "ERR_NETWORK" ->
  let body := resp_data response in
  (FailsWith POST "/ecommerce/checkout/validate" error ->
   forall checkoutData token st,
     (nullish body = true ->
      outcome (validateCheckoutForPayment checkoutData token) st
      = Throw (TypeError_read body "message"))
     /\ (nullish body = false -> truthy (member body "message") = false ->
         outcome (validateCheckoutForPayment checkoutData token) st
         = Throw (new_Error "Failed to validate checkout")))
  /\ (FailsWith POST "/ecommerce/payments/initiate-payment-first" error ->
      forall paymentData token st,
        (nullish body = true ->
         outcome (initiatePaymentFirst paymentData token) st
         = Throw (TypeError_read body "message"))
        /\ (nullish body = false ->
            truthy (member body "message") = false ->
            outcome (initiatePaymentFirst paymentData token) st
            = Throw (new_Error "Failed to initiate payment"))).
Proof.
  intros R N C1 C2 body.
  pose proof (responseRejected_kept _ N C1 C2) as K.
  split; intros F payload token st.
  - unfold validateCheckoutForPayment, outcome, try_catch, bind.
    rewrite (post_fails_with _ _ _ _ _ F), K.
    unfold forwardUpstreamMessage. rewrite R. fold body.
    unfold bind, lift, throw, getProp, js_or.
    split; [intros ->; reflexivity|intros -> ->; reflexivity].
  - unfold initiatePaymentFirst, outcome, try_catch, bind.
    rewrite (post_fails_with _ _ _ _ _ F), K.
    unfold forwardUpstreamMessage. rewrite R. fold body.
    unfold bind, lift, throw, getProp, js_or.
    split; [intros ->; reflexivity|intros -> ->; reflexivity].
Qed.

(** X17.  For a failure with an error envelope whose message (the body's
    [message] when truthy, else the default) converts to a string, the
    adapter rejects with a plain [Error] of that message that carries the
    HTTP status and, as [errors], the body's [errors] when truthy and the
    empty object otherwise; the original error's [code] and [response] are
    not on it.  The envelope is looked at first: this holds also when the
    failure has the timeout or the network code.  When the message does
    not convert to a string, [new Error(message)] throws in the handler
    and the adapter rejects with that TypeError, which has neither the
    status code nor the field errors. *)
Theorem error_envelope_errors_field (config : Request) (st : ClientState)
        (error : JSError) (response : Response) (fields : JSObject) :
  upstream (requestFulfilled (authToken st) config) = Rejected error ->
  err_response error = Some response ->
  resp_data response = JObj fields ->
  lookup "status" fields = Some (JStr "error") ->
  let message :=
    if truthy (member (JObj fields) "message")
    then member (JObj fields) "message"
    else JStr "An error occurred" in
  (forall text,
      toString message = Some text ->
      outcome (request config) st
      = Throw (mkJSError "Error" text (Some (resp_status response))
                 (Some (if truthy (member (JObj fields) "errors")
                        then member (JObj fields) "errors"
                        else JObj []))
                 None None))
  /\ (toString message = None ->
      exists rejected,
        outcome (request config) st = Throw rejected
        /\ err_name rejected = "TypeError"
        /\ err_statusCode rejected = None
        /\ err_errors rejected = None).
Proof.
  intros U R B S message. unfold outcome.
  rewrite (request_rejected _ _ _ U). simpl snd.
  rewrite (responseRejected_envelope _ _ _ R B S).
  unfold ToString, js_or. fold message. split.
  - now intros text ->.
  - intros ->. eexists. repeat split.
Qed.

Ltac answer_null A :=
  match goal with
  | |- context [upstream (requestFulfilled ?t ?c)] =>
      let r := fresh "response" in
      let Ans := fresh "Ans" in
      let N := fresh "N" in
      destruct (A (req_method c) (req_url c) ltac:(simpl; auto))
        as (r & Ans & N);
      rewrite (Ans (requestFulfilled t c)
                   (proj1 (requestFulfilled_keeps t c))
                   (proj1 (proj2 (requestFulfilled_keeps t c))));
      unfold visibleBody in N; cbv beta iota zeta; unfold getProp;
      rewrite N
  end.

(** X18.  An answer whose visible body is [null] or [undefined] (a success
    envelope with [data: null], or a bare [null]) is a failure for the
    methods that read the body: [create], [getOrderStatus],
    [processPayment], [getOrderInvoice], [getOrderTracking],
    [verifyCheckout] and [getCheckoutSession] raise their fixed message
    instead of returning an object of undefined fields. *)
Theorem null_body_is_a_failure (call : Call) (msg : string)
        (st : ClientState) :
  readsResponseBody call = true ->
  failureMessage call = Some msg ->
  (forall method url,
      In (method, url) (endpoints call) ->
      exists response,
        Answers method url response
        /\ nullish (visibleBody response) = true) ->
  outcome (invoke call) st = Throw (new_Error msg).
Proof.
  destruct call; cbn [readsResponseBody invoke failureMessage endpoints];
    intros Rd E A; try discriminate Rd; injection E as <-;
    unfold_methods; async.
  - destruct (transformOrderForCellerHut createOrderDto);
      [answer_null A|]; reflexivity.
  - answer_null A. reflexivity.
  - answer_null A. reflexivity.
  - answer_null A. reflexivity.
  - answer_null A. reflexivity.
  - answer_null A. reflexivity.
  - answer_null A. reflexivity.
Qed.

(** X19.  [update] sends, when the draft transforms, exactly one PUT to
    [/orders/{id}] with the transformed draft as body.  When that request
    is answered it returns the transformed visible body; when the response
    transformer throws on that body it raises "Failed to update order {id}
    in Ekasi Cart API" although the PUT was sent and answered. *)
Theorem update_single_put (id : JSNumber) (updateOrderDto draft : JSValue)
        (st : ClientState) :
  transformOrderForCellerHut updateOrderDto = Ok draft ->
  exists req,
    requests (update id updateOrderDto) st = [req]
    /\ req_method req = PUT
    /\ req_url req = "/orders/" ++ num_to_string id
    /\ req_data req = draft
    /\ (forall response o,
           upstream req = Resolved response ->
           transformCellerHutOrder (visibleBody response) = Ok o ->
           outcome (update id updateOrderDto) st = Ok (JObj o))
    /\ (forall response e,
           upstream req = Resolved response ->
           transformCellerHutOrder (visibleBody response) = Throw e ->
           outcome (update id updateOrderDto) st
           = Throw (new_Error ("Failed to update order "
                               ++ num_to_string id
                               ++ " in Ekasi Cart API"))).
Proof.
  intro D.
  set (config := mkRequest PUT ("/orders/" ++ num_to_string id) draft
                           JUndefined (mergeHeaders [])).
  exists (requestFulfilled (authToken st) config).
  destruct (requestFulfilled_keeps (authToken st) config)
    as (Km & Ku & Kd & _).
  split; [|split; [exact Km|split; [exact Ku|split; [exact Kd|split]]]].
  - unfold update. async. rewrite D. fold config.
    each_path; log_shape; reflexivity.
  - intros response o U T. unfold update, visibleBody in *. async.
    rewrite D. fold config. rewrite U. cbv beta iota. now rewrite T.
  - intros response e U T. unfold update, visibleBody in *. async.
    rewrite D. fold config. rewrite U. cbv beta iota. now rewrite T.
Qed.

(** X20.  [cancel] sends exactly one POST to [/orders/{id}/cancel],
    without a body, and when it is answered returns the transformed
    visible body. *)
Theorem cancel_single_post (id : JSNumber) (st : ClientState) :
  exists req,
    requests (cancel id) st = [req]
    /\ req_method req = POST
    /\ req_url req = "/orders/" ++ num_to_string id ++ "/cancel"
    /\ req_data req = JUndefined
    /\ (forall response o,
           upstream req = Resolved response ->
           transformCellerHutOrder (visibleBody response) = Ok o ->
           outcome (cancel id) st = Ok (JObj o)).
Proof.
  set (config := mkRequest POST
                   ("/orders/" ++ num_to_string id ++ "/cancel")
                   JUndefined JUndefined (mergeHeaders [])).
  exists (requestFulfilled (authToken st) config).
  destruct (requestFulfilled_keeps (authToken st) config)
    as (Km & Ku & Kd & _).
  split; [|split; [exact Km|split; [exact Ku|split; [exact Kd|]]]].
  - unfold cancel. async. fold config.
    each_path; log_shape; reflexivity.
  - intros response o U T. unfold cancel, visibleBody in *. async.
    fold config. rewrite U. cbv beta iota. now rewrite T.
Qed.

(** X21.  [updatePaymentStatus(id, s)] sends exactly one PUT to
    [/orders/{id}/payment-status] with body [{payment_status: s}], and
    when it is answered returns the transformed visible body. *)
Theorem updatePaymentStatus_single_put (id : JSNumber)
        (paymentStatus : string) (st : ClientState) :
  exists req,
    requests (updatePaymentStatus id paymentStatus) st = [req]
    /\ req_method req = PUT
    /\ req_url req = "/orders/" ++ num_to_string id ++ "/payment-status"
    /\ req_data req = JObj [("payment_status", JStr paymentStatus)]
    /\ (forall response o,
           upstream req = Resolved response ->
           transformCellerHutOrder (visibleBody response) = Ok o ->
           outcome (updatePaymentStatus id paymentStatus) st
           = Ok (JObj o)).
Proof.
  set (config := mkRequest PUT
                   ("/orders/" ++ num_to_string id ++ "/payment-status")
                   (JObj [("payment_status", JStr paymentStatus)])
                   JUndefined (mergeHeaders [])).
  exists (requestFulfilled (authToken st) config).
  destruct (requestFulfilled_keeps (authToken st) config)
    as (Km & Ku & Kd & _).
  split; [|split; [exact Km|split; [exact Ku|split; [exact Kd|]]]].
  - unfold updatePaymentStatus. async. fold config.
    each_path; log_shape; reflexivity.
  - intros response o U T. unfold updatePaymentStatus, visibleBody in *.
    async. fold config. rewrite U. cbv beta iota. now rewrite T.
Qed.

(** X22.  What the payment-first methods return when answered.
    [validateCheckoutForPayment] reads [sessionId] and [validated] from
    the [data] of the visible body and [message] from the visible body
    itself; when that [data] is missing, [null] or [undefined] it raises
    "Failed to validate checkout for payment".  [initiatePaymentFirst]
    reads its five fields from the visible body itself.
    [getCheckoutSession] returns the [data] of the visible body,
    [undefined] when there is none, and raises only on a [null] or
    [undefined] body.  [verifyPaymentForOrder] returns the visible body as
    it is, whatever it is. *)
Theorem payment_first_answers (token : option string) (st : ClientState)
        (response : Response) :
  let body := visibleBody response in
  (Answers POST "/ecommerce/checkout/validate" response ->
   forall checkoutData,
     (nullish (member body "data") = true ->
      outcome (validateCheckoutForPayment checkoutData token) st
      = Throw (new_Error "Failed to validate checkout for payment"))
     /\ (nullish (member body "data") = false ->
         outcome (validateCheckoutForPayment checkoutData token) st
         = Ok (JObj [("sessionId",
                      member (member body "data") "sessionId");
                     ("validated",
                      member (member body "data") "validated");
                     ("message", member body "message")])))
  /\ (Answers POST "/ecommerce/payments/initiate-payment-first" response ->
      forall paymentData,
        nullish body = false ->
        outcome (initiatePaymentFirst paymentData token) st
        = Ok (JObj [("transactionId", member body "transactionId");
                    ("checkoutId", member body "checkoutId");
                    ("paymentUrl", member body "paymentUrl");
                    ("status", member body "status");
                    ("message", member body "message")]))
  /\ (forall sessionId,
         Answers GET ("/ecommerce/checkout/session/" ++ sessionId)
                 response ->
         (nullish body = true ->
          outcome (getCheckoutSession sessionId token) st
          = Throw (new_Error "Failed to get checkout session"))
         /\ (nullish body = false ->
             outcome (getCheckoutSession sessionId token) st
             = Ok (member body "data")))
  /\ (Answers POST "/ecommerce/payments/verify-for-order" response ->
      forall data,
        nullish data = false ->
        outcome (verifyPaymentForOrder data token) st = Ok body).
Proof.
  intro body. subst body. unfold visibleBody.
  split; [|split; [|split]].
  - intros A checkoutData.
    unfold validateCheckoutForPayment, outcome, try_catch, bind, lift, ret,
      forwardUpstreamMessage.
    rewrite (post_answered _ _ _ _ _ A). unfold getProp.
    destruct (nullish (resp_data (responseFulfilled response))) eqn:N.
    + split; [reflexivity|].
      destruct (resp_data (responseFulfilled response)); discriminate.
    + cbv beta iota.
      destruct (nullish (member (resp_data (responseFulfilled response))
                                "data")).
      * split; [reflexivity|discriminate].
      * split; [discriminate|reflexivity].
  - intros A paymentData N.
    unfold initiatePaymentFirst, outcome, try_catch, bind, lift, ret.
    rewrite (post_answered _ _ _ _ _ A). unfold getProp. now rewrite N.
  - intros sessionId A.
    unfold getCheckoutSession, outcome, try_catch, bind, lift, ret, throw.
    rewrite (get_answered _ _ _ _ _ A). unfold getProp.
    split; intros ->; reflexivity.
  - intros A data N.
    unfold verifyPaymentForOrder, outcome, try_catch, bind, lift, ret.
    unfold getProp. rewrite N. cbv beta iota.
    now rewrite (post_answered _ _ _ _ _ A).
Qed.

End Reads.

Section Proxy.
Context {net : Network} {transformer : DataTransformer}
        {entity : OrderEntity} {runtime : Runtime}.

Ltac same_answer H :=
  repeat (cbv beta iota zeta;
          repeat match goal with
            | U : upstream _ = Resolved _ |- _ =>
                progress rewrite ?(H _ _ U)
            end;
          match goal with
          | |- context [match ?x with _ => _ end] =>
              lazymatch x with
              | context [match _ with _ => _ end] => fail
              | upstream ?r =>
                  let U := fresh "U" in destruct (upstream r) eqn:U
              | _ => destruct x
              end
          end).

(** X23.  The service cannot tell an answer that arrives in the success
    envelope from one that arrives already unwrapped: as long as no
    unwrapped answer is itself an envelope, every method gives the same
    outcome and sends the same requests on a network and on that network
    with the success handler already applied to every answer. *)
Theorem unwrapping_is_transparent (call : Call) (st : ClientState) :
  (forall req response,
      upstream req = Resolved response ->
      responseFulfilled (responseFulfilled response)
      = responseFulfilled response) ->
  invoke (net := unwrapped net) call st = invoke call st.
Proof.
  intro H.
  destruct call; cbn [invoke]; unfold_methods; async;
    cbn [upstream unwrapped]; same_answer H; cbv beta iota zeta;
    repeat match goal with
      | U : upstream _ = Resolved _ |- _ => progress rewrite ?(H _ _ U)
      end;
    reflexivity.
Qed.

End Proxy.

Lemma header_setHeader_other (k k' v : string) (h : list (string * string)) :
  k' <> k -> header k (setHeader k' v h) = header k h.
Proof.
  intro N. induction h as [|[k0 v0] h IH]; simpl.
  - apply String.eqb_neq in N. now rewrite N.
  - destruct (String.eqb_spec k0 k') as [->|_]; simpl.
    + apply String.eqb_neq in N. now rewrite N.
    + now rewrite IH.
Qed.

Lemma requestFulfilled_other_header (token : option string)
      (config : Request) (k : string) :
  k <> "Authorization" ->
  header k (req_headers (requestFulfilled token config))
  = header k (req_headers config).
Proof.
  intro N. unfold requestFulfilled. destruct token as [t|]; [|reflexivity].
  destruct (negb (t =? "")); [|reflexivity]. simpl.
  apply header_setHeader_other. congruence.
Qed.

Lemma content_headers (config : Request) (token callerToken : option string) :
  req_headers config = mergeHeaders (authHeaders callerToken)
  \/ req_headers config = mergeHeaders [] ->
  header "Content-Type" (req_headers (requestFulfilled token config))
  = Some "application/json"
  /\ header "Accept" (req_headers (requestFulfilled token config))
     = Some "application/json".
Proof.
  intro E.
  rewrite !requestFulfilled_other_header by discriminate.
  destruct E as [-> | ->]; [|now split].
  unfold authHeaders. destruct callerToken as [t|]; [|now split].
  destruct (negb (t =? "")); now split.
Qed.

Section Defaults.
Context {net : Network} {transformer : DataTransformer}
        {entity : OrderEntity} {runtime : Runtime}.

(** X24.  Every request of every method carries the two headers the
    instance was created with, [Content-Type: application/json] and
    [Accept: application/json]: neither the headers a call passes nor the
    request handler replaces them. *)
Theorem requests_content_headers (call : Call) (st : ClientState) :
  Forall (fun req =>
            header "Content-Type" (req_headers req)
            = Some "application/json"
            /\ header "Accept" (req_headers req) = Some "application/json")
         (requests (invoke call) st).
Proof.
  destruct call; cbn [invoke]; unfold_methods; async;
    each_path; log_shape;
    repeat (apply Forall_cons;
            [first [apply (content_headers _ _ token); left; reflexivity
                   |apply (content_headers _ _ None); right; reflexivity]|]);
    apply Forall_nil.
Qed.

End Defaults.

(** ** Worked cases of the further properties *)

Section FurtherCases.

Import Samples.
#[local] Existing Instance sampleTransformer.
#[local] Existing Instance sampleEntity.
#[local] Existing Instance sampleRuntime.

Lemma getOrderByIdOrTrackingNumber_id_first_witness :
  outcome (getOrderByIdOrTrackingNumber
             (net := servingOnly "/ecommerce/orders/7"
                                 (envelope trackedOrder))
             "7" (Some "secret")) idle
  = Ok (JObj [("id", num 7); ("tracking_number", JStr "T123");
              ("order_status", JStr "processing"); ("total", JUndefined);
              ("gps_tracking",
               JObj [("trackingEnabled", JBool true);
                     ("trackingUrl", JStr "https://track/991");
                     ("deliveryService", JStr "tookan");
                     ("orderId", num 7);
                     ("orderNumber", JStr "T123");
                     ("orderStatus", JStr "processing")])]).
Proof.
  refine (proj1 (proj2 (proj2
            (proj1 (getOrderByIdOrTrackingNumber_id_first
                      (net := servingOnly "/ecommerce/orders/7"
                                          (envelope trackedOrder))
                      "7" (Some "secret") idle)
                   (mkResponse 200 (envelope trackedOrder))
                   _ _ _ eq_refl eq_refl))) eq_refl _).
  - intros req _ U. simpl. rewrite U. reflexivity.
  - discriminate.
Defined.

Lemma getOrderStatus_defaults_witness :
  exists result,
    outcome (getOrderStatus
               (net := answering 200
                         (envelope (JObj [("id", num 5);
                                          ("order_status",
                                           JStr "order-completed")])))
               (NDec 5)) idle
    = Ok result
    /\ member result "order_status" = JStr "order-completed"
    /\ member result "payment_status" = JStr "payment-pending".
Proof.
  destruct (proj2 (getOrderStatus_defaults
                     (net := answering 200
                               (envelope (JObj [("id", num 5);
                                                ("order_status",
                                                 JStr "order-completed")])))
                     (NDec 5) idle
                     (mkResponse 200
                        (envelope (JObj [("id", num 5);
                                         ("order_status",
                                          JStr "order-completed")])))
                     (fun req _ _ => eq_refl)) eq_refl)
    as (result & O & _ & _ & S & P).
  exists result. split; [exact O|]. split; [exact S|exact P].
Defined.

Lemma verifyCheckout_reads_inner_data_witness :
  outcome (verifyCheckout
             (net := answering 200
                       (envelope (JObj [("total_tax", num 12);
                                        ("shipping_charge", num 50)])))
             (JObj [("products", JArr [])]) None) idle
  = Throw (new_Error "Failed to verify checkout data").
Proof.
  exact (proj1 (verifyCheckout_reads_inner_data
                  (net := answering 200
                            (envelope (JObj [("total_tax", num 12);
                                             ("shipping_charge", num 50)])))
                  (JObj [("products", JArr [])]) None idle
                  (mkResponse 200
                     (envelope (JObj [("total_tax", num 12);
                                      ("shipping_charge", num 50)])))
                  (fun req _ _ => eq_refl)) eq_refl).
Defined.

Lemma failed_arguments_send_nothing_witness :
  requests (verifyPaymentForOrder (net := answering 200 JNull)
                                  JNull (Some "secret")) idle = []
  /\ outcome (verifyPaymentForOrder (net := answering 200 JNull)
                                    JNull (Some "secret")) idle
     = Throw (new_Error "Failed to verify payment for order").
Proof.
  exact (proj1 (proj2 (proj2 (failed_arguments_send_nothing
                                (net := answering 200 JNull) idle)))
               JNull (Some "secret") eq_refl).
Defined.


Lemma listing_options_override_witness :
  NoDup (map fst [("page", num 0); ("customer_id", num 99)])
  /\ exists req params,
       requests (getOrdersByCustomer
                   (net := answering 200 (JArr []))
                   (NDec 7) (JObj [("page", num 0);
                                   ("customer_id", num 99)])) idle
       = [req]
       /\ req_params req = JObj params
       /\ lookup "customer_id" params = Some (num 99)
       /\ lookup "page" params = Some (num 0)
       /\ lookup "limit" params = Some (num 15).
Proof.
  assert (D : NoDup (map fst [("page", num 0); ("customer_id", num 99)])).
  { repeat constructor; simpl; intuition discriminate. }
  split; [exact D|].
  destruct (proj1 (proj1 (listing_options_override
                            (net := answering 200 (JArr []))
                            (NDec 7) idle)
                         [("page", num 0); ("customer_id", num 99)] D))
    as (req & params & R & _ & _ & P & Over & _ & _ & L).
  exists req, params. split; [exact R|]. split; [exact P|].
  split; [apply Over; reflexivity|]. split; [apply Over; reflexivity|].
  apply L. reflexivity.
Defined.

Lemma invoke_raises_fixed_message_only_witness :
  outcome (invoke (net := answering 200 JNull) (CallCancel (NDec 3))) idle
  = Throw (new_Error "Failed to cancel order 3 in Ekasi Cart API")
  /\ new_Error "Failed to cancel order 3 in Ekasi Cart API"
     = new_Error "Failed to cancel order 3 in Ekasi Cart API".
Proof.
  split; [reflexivity|].
  exact (invoke_raises_fixed_message_only
           (net := answering 200 JNull) (CallCancel (NDec 3))
           "Failed to cancel order 3 in Ekasi Cart API" idle
           (new_Error "Failed to cancel order 3 in Ekasi Cart API")
           eq_refl eq_refl).
Defined.

Lemma payment_first_lost_message_witness :
  CarriesErrorEnvelope (badResponse 422 (errorEnvelope (JStr "Cart is empty")))
  /\ outcome (initiatePaymentFirst
                (net := failing
                          (badResponse 422
                             (errorEnvelope (JStr "Cart is empty"))))
                (JObj [("amount", num 100)]) None) idle
     = Throw (new_Error "Failed to initiate payment").
Proof.
  assert (E : CarriesErrorEnvelope
                (badResponse 422 (errorEnvelope (JStr "Cart is empty")))).
  { eexists. split; [reflexivity|]. eexists. split; reflexivity. }
  split; [exact E|].
  exact (proj2 (payment_first_lost_message
                  (net := failing
                            (badResponse 422
                               (errorEnvelope (JStr "Cart is empty"))))
                  _ (or_introl E))
               (fun req _ _ => eq_refl) (JObj [("amount", num 100)]) None
               idle).
Defined.

Lemma payment_first_kept_response_witness :
  ~ CarriesErrorEnvelope (badResponse 502 (JStr "Bad Gateway"))
  /\ outcome (validateCheckoutForPayment
                (net := failing (badResponse 502 (JStr "Bad Gateway")))
                (JObj [("items", JArr [])]) None) idle
     = Throw (new_Error "Failed to validate checkout").
Proof.
  assert (N : ~ CarriesErrorEnvelope (badResponse 502 (JStr "Bad Gateway"))).
  { intros (response & R & fields & B & _). injection R as <-.
    discriminate B. }
  split; [exact N|].
  refine (proj2 (proj1 (payment_first_kept_response
                          (net := failing
                                    (badResponse 502 (JStr "Bad Gateway")))
                          (badResponse 502 (JStr "Bad Gateway"))
                          (mkResponse 502 (JStr "Bad Gateway"))
                          eq_refl N _ _)
                       (fun req _ _ => eq_refl)
                       (JObj [("items", JArr [])]) None idle)
                eq_refl eq_refl); discriminate.
Defined.

Lemma error_envelope_errors_field_witness :
  outcome (request (net := failing
                             (badResponse 422
                                (JObj [("status", JStr "error");
                                       ("message", JStr "Invalid")])))
                   anyRequest) idle
  = Throw (mkJSError "Error" "Invalid" (Some 422%Z) (Some (JObj []))
                     None None).
Proof.
  exact (proj1 (error_envelope_errors_field
                  (net := failing
                            (badResponse 422
                               (JObj [("status", JStr "error");
                                      ("message", JStr "Invalid")])))
                  anyRequest idle
                  (badResponse 422
                     (JObj [("status", JStr "error");
                            ("message", JStr "Invalid")]))
                  (mkResponse 422
                     (JObj [("status", JStr "error");
                            ("message", JStr "Invalid")]))
                  [("status", JStr "error"); ("message", JStr "Invalid")]
                  eq_refl eq_refl eq_refl eq_refl)
               "Invalid" eq_refl).
Defined.

Lemma null_body_is_a_failure_witness :
  outcome (invoke (net := answering 200 (envelope JNull))
                  (CallGetOrderStatus (NDec 5))) idle
  = Throw (new_Error "Failed to get status for order 5").
Proof.
  apply (null_body_is_a_failure
           (net := answering 200 (envelope JNull))
           (CallGetOrderStatus (NDec 5)) _ idle eq_refl eq_refl).
  intros method url _. exists (mkResponse 200 (envelope JNull)).
  split; [|reflexivity]. intros req _ _. reflexivity.
Defined.

Lemma update_single_put_witness :
  exists req,
    requests (update (net := answering 200
                               (envelope (JObj [("id", num 9)])))
                     (NDec 9) (JObj [("note", JStr "leave at door")])) idle
    = [req]
    /\ req_url req = "/orders/9"
    /\ req_data req = JObj [("note", JStr "leave at door")]
    /\ outcome (update (net := answering 200
                                 (envelope (JObj [("id", num 9)])))
                       (NDec 9) (JObj [("note", JStr "leave at door")])) idle
       = Ok (JObj [("id", num 9); ("tracking_number", JUndefined);
                   ("order_status", JUndefined); ("total", JUndefined)]).
Proof.
  destruct (update_single_put
              (net := answering 200 (envelope (JObj [("id", num 9)])))
              (transformer := sampleTransformer)
              (NDec 9) (JObj [("note", JStr "leave at door")])
              (JObj [("note", JStr "leave at door")]) idle eq_refl)
    as (req & S & _ & Ku & Kd & Run & _).
  exists req. split; [exact S|]. split; [exact Ku|]. split; [exact Kd|].
  apply (Run (mkResponse 200 (envelope (JObj [("id", num 9)]))));
    reflexivity.
Defined.

Lemma payment_first_answers_witness :
  outcome (validateCheckoutForPayment
             (net := answering 200
                       (envelope (JObj [("sessionId", JStr "s-1");
                                        ("validated", JBool true)])))
             (JObj [("items", JArr [])]) None) idle
  = Throw (new_Error "Failed to validate checkout for payment")
  /\ outcome (validateCheckoutForPayment
                (net := answering 200
                          (JObj [("message", JStr "Validated");
                                 ("data",
                                  JObj [("sessionId", JStr "s-1");
                                        ("validated", JBool true)])]))
                (JObj [("items", JArr [])]) None) idle
     = Ok (JObj [("sessionId", JStr "s-1"); ("validated", JBool true);
                 ("message", JStr "Validated")]).
Proof.
  split.
  - exact (proj1 (proj1 (payment_first_answers
                           (net := answering 200
                                     (envelope
                                        (JObj [("sessionId", JStr "s-1");
                                               ("validated", JBool true)])))
                           None idle
                           (mkResponse 200
                              (envelope
                                 (JObj [("sessionId", JStr "s-1");
                                        ("validated", JBool true)]))))
                        (fun req _ _ => eq_refl)
                        (JObj [("items", JArr [])])) eq_refl).
  - exact (proj2 (proj1 (payment_first_answers
                           (net := answering 200
                                     (JObj [("message", JStr "Validated");
                                            ("data",
                                             JObj [("sessionId",
                                                    JStr "s-1");
                                                   ("validated",
                                                    JBool true)])]))
                           None idle
                           (mkResponse 200
                              (JObj [("message", JStr "Validated");
                                     ("data",
                                      JObj [("sessionId", JStr "s-1");
                                            ("validated", JBool true)])])))
                        (fun req _ _ => eq_refl)
                        (JObj [("items", JArr [])])) eq_refl).
Defined.

Lemma unwrapping_is_transparent_witness :
  invoke (net := unwrapped
                   (answering 200 (envelope (JObj [("id", num 5)]))))
         (CallGetOrderStatus (NDec 5)) idle
  = invoke (net := answering 200 (envelope (JObj [("id", num 5)])))
           (CallGetOrderStatus (NDec 5)) idle.
Proof.
  apply (unwrapping_is_transparent
           (net := answering 200 (envelope (JObj [("id", num 5)])))).
  intros req response U. injection U as <-. reflexivity.
Defined.

End FurtherCases.
